(** * api_server.py: the tool-call facade in front of the Google Suite flow

    A shallow embedding of [src/api_server.py]: the tool registry
    [TOOL_TO_CREW_MAPPING], the query synthesizer
    [convert_params_to_user_query], the result normalizer
    [parse_crewai_result], the lazily filled flow cache behind
    [get_google_suite_flow] and the request handler
    [execute_google_suite_tool].

    Python values are an inductive type; a Python [dict] is an association
    list in insertion order (the order shows in [str] and [json.dumps]);
    code that may raise returns a [result]; the module global [_flow_cache]
    and [os.environ] are finite maps inside an explicit [state] that every
    stateful function takes and returns, together with a trace of the calls
    made to the outside (environment reads, flow construction, flow
    invocation).  The two external behaviours, the [GoogleSuiteFlow]
    constructor and [flow.kickoff], are variables of the section that holds
    the stateful code.

    What the model covers.  A Python [str] is a [string]: one character
    stands for one code point, so the model covers the code points below
    256, all of which [sys.stdout] is taken to encode; the text of a [print]
    is then always written, and what can still raise in a log line is the
    evaluation of its f-string, which is modelled.  The conversion of an
    [int] to text raises [ValueError] beyond CPython's default limit of 4300
    digits ([sys.int_max_str_digits], CPython 3.11 and the security releases
    before it).  Values nest less deeply than the interpreter's recursion
    limit allows.  Tuples, bytes and instances of subclasses of the built-in
    types are not values of the model. *)

From Stdlib Require Import ZArith String Ascii List DecimalString Lia.
From stdpp Require Import base option gmap strings list.

Set Warnings "-register-all".

(** ** Exceptions and fallible code *)

Inductive exn_class : Type :=
  | TypeError
  | ValueError
  | KeyError
  | Exception_.

(** An exception: its class and the text of [str(e)]. *)
Record exn : Type := Exn { exn_type : exn_class; exn_str : string }.

Inductive result (A : Type) : Type :=
  | Ok (a : A)
  | Raise (e : exn).

Arguments Ok {A} a.
Arguments Raise {A} e.

Definition bind {A B : Type} (r : result A) (k : A -> result B) : result B :=
  match r with
  | Ok a => k a
  | Raise e => Raise e
  end.

Notation "x <- r ;;; k" := (bind r (fun x => k))
  (at level 100, r at next level, right associativity).

(** [isinstance(e, ValueError)], the test behind [except ValueError]. *)
Definition is_ValueError (e : exn) : bool :=
  match exn_type e with
  | ValueError => true
  | _ => false
  end.

(** ** Python values

    [PFloat bits repr]: a float by its IEEE-754 binary64 bit pattern, with
    the text [float.__repr__] gives for it (the shortest round-trip
    algorithm is not modelled, its output is carried along).

    [PObj type_name str_form repr_form response attrs]: an instance of a
    class that is none of the built-in types above nor a subclass of one,
    and that defines none of [__bool__], [__len__] and [__getitem__], for
    example [datetime] or the flow's state object: the name of its type, its
    [str()] and [repr()], the value of its [response] attribute when
    [hasattr(o, 'response')], and its [__dict__] when
    [hasattr(o, '__dict__')].  Such an object is true, has no [len()], is
    not subscriptable, and [json.dumps] hands it to [default]. *)
Inductive pyval : Type :=
  | PNone
  | PBool (b : bool)
  | PInt (z : Z)
  | PFloat (bits : Z) (repr : string)
  | PStr (s : string)
  | PList (l : list pyval)
  | PDict (d : list (string * pyval))
  | PObj (type_name str_form repr_form : string)
         (response : option pyval) (attrs : option (list (string * pyval))).

Definition pydict : Type := list (string * pyval).

(** [d.get(k)] on an insertion-ordered dict: [None] when [k] is absent. *)
Fixpoint dict_get {V : Type} (d : list (string * V)) (k : string) : option V :=
  match d with
  | [] => None
  | (k', v) :: rest => if String.eqb k k' then Some v else dict_get rest k
  end.

(** [d.get(k, default)]. *)
Definition py_get (d : pydict) (k : string) (default : pyval) : pyval :=
  match dict_get d k with
  | Some v => v
  | None => default
  end.

(** [list(d.keys())]. *)
Definition dict_keys {V : Type} (d : list (string * V)) : list string :=
  map fst d.

(** [k in d]. *)
Definition dict_mem {V : Type} (d : list (string * V)) (k : string) : bool :=
  match dict_get d k with
  | Some _ => true
  | None => false
  end.

(** *** Float bit patterns *)

Definition float_exponent (bits : Z) : Z := Z.land (Z.shiftr bits 52) 2047.
Definition float_mantissa (bits : Z) : Z := Z.land bits (Z.ones 52).
Definition float_sign (bits : Z) : bool := Z.testbit bits 63.

Definition float_is_zero (bits : Z) : bool :=
  (float_exponent bits =? 0)%Z && (float_mantissa bits =? 0)%Z.
Definition float_is_nan (bits : Z) : bool :=
  (float_exponent bits =? 2047)%Z && negb (float_mantissa bits =? 0)%Z.
Definition float_is_inf (bits : Z) : bool :=
  (float_exponent bits =? 2047)%Z && (float_mantissa bits =? 0)%Z.

(** *** Truth value, [bool(v)] *)

Definition py_truthy (v : pyval) : bool :=
  match v with
  | PNone => false
  | PBool b => b
  | PInt z => negb (z =? 0)%Z
  | PFloat bits _ => negb (float_is_zero bits)
  | PStr s => negb (String.eqb s "")
  | PList l => match l with [] => false | _ => true end
  | PDict d => match d with [] => false | _ => true end
  | PObj _ _ _ _ _ => true
  end.

(** [x or y]. *)
Definition py_or (x y : pyval) : pyval := if py_truthy x then x else y.

(** [type(v).__name__]. *)
Definition py_type_name (v : pyval) : string :=
  match v with
  | PNone => "NoneType"
  | PBool _ => "bool"
  | PInt _ => "int"
  | PFloat _ _ => "float"
  | PStr _ => "str"
  | PList _ => "list"
  | PDict _ => "dict"
  | PObj tn _ _ _ _ => tn
  end.

(** *** [str()] and [repr()] *)

Definition hex_digit (n : N) : ascii :=
  if (n <? 10)%N then ascii_of_N (48 + n) else ascii_of_N (87 + n).

(** The two lowercase hexadecimal digits of a character code. *)
Definition hex2 (c : ascii) : string :=
  let n := N_of_ascii c in
  String (hex_digit (n / 16)) (String (hex_digit (n mod 16)) "").

(** [sys.int_max_str_digits], at its default. *)
Definition int_max_str_digits : Z := 4300.

(** [10 ^ 4300] written out, the least [int] of 4301 digits. *)
Definition int_str_threshold : Z :=
  10000000000000000000000000000000000000000000000000000000000000000000000000000000000000000000000000000000000000000000000000000000000000000000000000000000000000000000000000000000000000000000000000000000000000000000000000000000000000000000000000000000000000000000000000000000000000000000000000000000000000000000000000000000000000000000000000000000000000000000000000000000000000000000000000000000000000000000000000000000000000000000000000000000000000000000000000000000000000000000000000000000000000000000000000000000000000000000000000000000000000000000000000000000000000000000000000000000000000000000000000000000000000000000000000000000000000000000000000000000000000000000000000000000000000000000000000000000000000000000000000000000000000000000000000000000000000000000000000000000000000000000000000000000000000000000000000000000000000000000000000000000000000000000000000000000000000000000000000000000000000000000000000000000000000000000000000000000000000000000000000000000000000000000000000000000000000000000000000000000000000000000000000000000000000000000000000000000000000000000000000000000000000000000000000000000000000000000000000000000000000000000000000000000000000000000000000000000000000000000000000000000000000000000000000000000000000000000000000000000000000000000000000000000000000000000000000000000000000000000000000000000000000000000000000000000000000000000000000000000000000000000000000000000000000000000000000000000000000000000000000000000000000000000000000000000000000000000000000000000000000000000000000000000000000000000000000000000000000000000000000000000000000000000000000000000000000000000000000000000000000000000000000000000000000000000000000000000000000000000000000000000000000000000000000000000000000000000000000000000000000000000000000000000000000000000000000000000000000000000000000000000000000000000000000000000000000000000000000000000000000000000000000000000000000000000000000000000000000000000000000000000000000000000000000000000000000000000000000000000000000000000000000000000000000000000000000000000000000000000000000000000000000000000000000000000000000000000000000000000000000000000000000000000000000000000000000000000000000000000000000000000000000000000000000000000000000000000000000000000000000000000000000000000000000000000000000000000000000000000000000000000000000000000000000000000000000000000000000000000000000000000000000000000000000000000000000000000000000000000000000000000000000000000000000000000000000000000000000000000000000000000000000000000000000000000000000000000000000000000000000000000000000000000000000000000000000000000000000000000000000000000000000000000000000000000000000000000000000000000000000000000000000000000000000000000000000000000000000000000000000000000000000000000000000000000000000000000000000000000000000000000000000000000000000000000000000000000000000000000000000000000000000000000000000000000000000000000000000000000000000000000000000000000000000000000000000000000000000000000000000000000000000000000000000000000000000000000000000000000000000000000000000000000000000000000000000000000000000000000000000000000000000000000000000000000000000000000000000000000000000000000000000000000000000000000000000000000000000000000000000000000000000000000000000000000000000000000000000000000000000000000000000000000000000000000000000000000000000000000000000000000000000000000000000000000000000000000000000000000000000000000000000000000000000000000000000000000000000000000000000000000000000000000000000000000000000000000000000000000000000000000000000000000000000000000000000000000000000000000000000000000000000000000000000000000000000000000000000000000000000000000000000000000000000000000000000000000000000000000000000000000000000000000000000000000000000000000000000000000000000000000000000000000000000000000000000000000000000000000000000000000000000000000000000000000000000000000000000000000000000000000000000000000000000000000000000000000000000000000000000000000000000000000000000000000000000000000000000000000000000000000000000000000000000000000000000000000000000000000000000000000000000000000000000000000000000000000000000000000000000000000000000000000000000000000000000000000000000000000000000000000000000000000000000000000000000000000000000000000000000000000000000000000000000000000000000000000000000000000000000000000000000000000000000000000000000000.

(** [str(z)] and [repr(z)] of an [int]: [ValueError] when [z] has more
    decimal digits than the limit, that is when [10 ^ 4300 <= |z|]. *)
Definition int_str (z : Z) : result string :=
  if (int_str_threshold <=? Z.abs z)%Z
  then Raise (Exn ValueError
                "Exceeds the limit (4300 digits) for integer string conversion; use sys.set_int_max_str_digits() to increase the limit")
  else Ok (NilZero.string_of_int (Z.to_int z)).

(** The decimal text of a list index. *)
Definition nat_str (n : nat) : string := NilZero.string_of_uint (Nat.to_uint n).

(** The double quote character. *)
Definition dquote : ascii := "034"%char.

(** [f] on every item, from left to right, up to the first that raises. *)
Definition mapM {A B : Type} (f : A -> result B) : list A -> result (list B) :=
  fix go (l : list A) : result (list B) :=
    match l with
    | [] => Ok []
    | x :: rest => y <- f x ;;; ys <- go rest ;;; Ok (y :: ys)
    end.

Fixpoint string_mem (c : ascii) (s : string) : bool :=
  match s with
  | EmptyString => false
  | String c' s' => Ascii.eqb c c' || string_mem c s'
  end.

(** Code points below 256 that [str.isprintable] rejects. *)
Definition nonprintable (c : ascii) : bool :=
  let n := N_of_ascii c in
  (n <? 32)%N || ((127 <=? n)%N && (n <=? 160)%N) || (n =? 173)%N.

Definition repr_char (quote c : ascii) : string :=
  if Ascii.eqb c quote || Ascii.eqb c "\"%char then String "\"%char (String c "")
  else if Ascii.eqb c "009"%char then "\t"
  else if Ascii.eqb c "010"%char then "\n"
  else if Ascii.eqb c "013"%char then "\r"
  else if nonprintable c then "\x" +:+ hex2 c
  else String c "".

Fixpoint repr_chars (quote : ascii) (s : string) : string :=
  match s with
  | EmptyString => ""
  | String c s' => repr_char quote c +:+ repr_chars quote s'
  end.

(** [repr(s)] of a [str]: single quotes, unless the text has a single quote
    and no double quote. *)
Definition str_repr (s : string) : string :=
  let quote :=
    if string_mem "'"%char s && negb (string_mem dquote s)
    then dquote else "'"%char in
  String quote (repr_chars quote s) +:+ String quote "".

Fixpoint py_repr (v : pyval) : result string :=
  match v with
  | PNone => Ok "None"
  | PBool true => Ok "True"
  | PBool false => Ok "False"
  | PInt z => int_str z
  | PFloat _ r => Ok r
  | PStr s => Ok (str_repr s)
  | PList l =>
      items <- mapM py_repr l ;;;
      Ok ("[" +:+ String.concat ", " items +:+ "]")
  | PDict d =>
      items <- mapM (fun kv => match kv with
                               | (k, x) =>
                                   r <- py_repr x ;;;
                                   Ok (str_repr k +:+ ": " +:+ r)
                               end) d ;;;
      Ok ("{" +:+ String.concat ", " items +:+ "}")
  | PObj _ _ rf _ _ => Ok rf
  end.

(** [str(v)], also what an f-string field [{v}] renders. *)
Definition py_str (v : pyval) : result string :=
  match v with
  | PStr s => Ok s
  | PObj _ sf _ _ _ => Ok sf
  | _ => py_repr v
  end.

(** *** [len()], slicing and [str.join] *)

Definition py_len (v : pyval) : result nat :=
  match v with
  | PStr s => Ok (String.length s)
  | PList l => Ok (length l)
  | PDict d => Ok (length d)
  | _ => Raise (Exn TypeError
                  ("object of type '" +:+ py_type_name v +:+ "' has no len()"))
  end.

(** [v[:n]].  Slicing a dict raises: [TypeError] (unhashable slice) up to
    CPython 3.11, [KeyError] from 3.12 on.  The model takes the former;
    neither is a [ValueError], so the handler reports both in the same
    branch, and no statement below depends on which of the two it is. *)
Definition py_slice_to (n : nat) (v : pyval) : result pyval :=
  match v with
  | PStr s => Ok (PStr (substring 0 n s))
  | PList l => Ok (PList (take n l))
  | PDict _ => Raise (Exn TypeError "unhashable type: 'slice'")
  | _ => Raise (Exn TypeError
                  ("'" +:+ py_type_name v +:+ "' object is not subscriptable"))
  end.

Fixpoint join_items (i : nat) (l : list pyval) : result (list string) :=
  match l with
  | [] => Ok []
  | PStr s :: rest => ss <- join_items (S i) rest ;;; Ok (s :: ss)
  | v :: _ =>
      Raise (Exn TypeError
               ("sequence item " +:+ nat_str i +:+ ": expected str instance, "
                +:+ py_type_name v +:+ " found"))
  end.

(** [sep.join(l)]: every item has to be a [str]. *)
Definition str_join (sep : string) (l : list pyval) : result string :=
  ss <- join_items 0 l ;;; Ok (String.concat sep ss).

(** *** [json.dumps(v, default=str)], with and without [indent]

    The encoder's defaults: [ensure_ascii], [allow_nan]; the separators are
    [", "] and [": "] without [indent], and [","] followed by a new line and
    the indentation, and [": "], with it.  A value the encoder does not know
    goes through [default=str] and is written as the JSON string of its
    [str()].  An [int] is written by [int.__repr__], so the digit limit
    applies. *)

Definition json_char (c : ascii) : string :=
  let n := N_of_ascii c in
  if Ascii.eqb c dquote then String "\"%char (String dquote EmptyString)
  else if Ascii.eqb c "\"%char then "\\"
  else if Ascii.eqb c "010"%char then "\n"
  else if Ascii.eqb c "013"%char then "\r"
  else if Ascii.eqb c "009"%char then "\t"
  else if Ascii.eqb c "008"%char then "\b"
  else if Ascii.eqb c "012"%char then "\f"
  else if (n <? 32)%N || (126 <? n)%N then "\u00" +:+ hex2 c
  else String c EmptyString.

Fixpoint json_chars (s : string) : string :=
  match s with
  | EmptyString => EmptyString
  | String c s' => json_char c +:+ json_chars s'
  end.

Definition json_str (s : string) : string :=
  String dquote (json_chars s) +:+ String dquote EmptyString.

(** The character of a new line, and [n] spaces. *)
Definition newline : string := String "010"%char EmptyString.

Fixpoint spaces (n : nat) : string :=
  match n with
  | O => EmptyString
  | S n' => String " "%char (spaces n')
  end.

(** The brackets around the encoded items of a list or dict at nesting
    [level]. *)
Definition json_container (indent : option nat) (level : nat)
    (opening closing : string) (items : list string) : string :=
  match items with
  | [] => opening +:+ closing
  | _ =>
      match indent with
      | None => opening +:+ String.concat ", " items +:+ closing
      | Some n =>
          let newline_indent := newline +:+ spaces (n * S level) in
          opening +:+ newline_indent
          +:+ String.concat ("," +:+ newline_indent) items
          +:+ newline +:+ spaces (n * level) +:+ closing
      end
  end.

Fixpoint json_encode (indent : option nat) (level : nat) (v : pyval)
    : result string :=
  match v with
  | PNone => Ok "null"
  | PBool true => Ok "true"
  | PBool false => Ok "false"
  | PInt z => int_str z
  | PFloat bits r =>
      Ok (if float_is_nan bits then "NaN"
          else if float_is_inf bits
               then (if float_sign bits then "-Infinity" else "Infinity")
               else r)
  | PStr s => Ok (json_str s)
  | PList l =>
      items <- mapM (json_encode indent (S level)) l ;;;
      Ok (json_container indent level "[" "]" items)
  | PDict d =>
      items <- mapM (fun kv => match kv with
                               | (k, x) =>
                                   j <- json_encode indent (S level) x ;;;
                                   Ok (json_str k +:+ ": " +:+ j)
                               end) d ;;;
      Ok (json_container indent level "{" "}" items)
  | PObj _ sf _ _ _ => Ok (json_str sf)
  end.

(** [json.dumps(v, default=str)]. *)
Definition json_dumps (v : pyval) : result string := json_encode None 0 v.

(** [json.dumps(v, indent=2, default=str)]. *)
Definition json_dumps_indent2 (v : pyval) : result string :=
  json_encode (Some 2) 0 v.

(** ** Tool registry *)

Definition TOOL_TO_CREW_MAPPING : list (string * string) :=
  [ ("google_calendar_create", "EVENT_MANAGEMENT_FLOW");
    ("google_calendar_list", "EVENT_MANAGEMENT_FLOW");
    ("google_calendar_get", "EVENT_MANAGEMENT_FLOW");
    ("google_calendar_update", "EVENT_MANAGEMENT_FLOW");
    ("google_calendar_delete", "EVENT_MANAGEMENT_FLOW");
    ("google_calendar_quick_add", "EVENT_MANAGEMENT_FLOW");
    ("google_calendar_freebusy", "EVENT_MANAGEMENT_FLOW");
    ("gmail_send", "EMAIL_MANAGEMENT_FLOW");
    ("gmail_read", "EMAIL_MANAGEMENT_FLOW");
    ("gmail_search", "EMAIL_MANAGEMENT_FLOW");
    ("gmail_draft", "EMAIL_MANAGEMENT_FLOW");
    ("gmail_labels", "EMAIL_MANAGEMENT_FLOW");
    ("gmail_reply", "EMAIL_MANAGEMENT_FLOW");
    ("google_drive_upload", "DRIVE_MANAGEMENT_FLOW");
    ("google_drive_download", "DRIVE_MANAGEMENT_FLOW");
    ("google_drive_list", "DRIVE_MANAGEMENT_FLOW");
    ("google_drive_share", "DRIVE_MANAGEMENT_FLOW");
    ("google_drive_create_folder", "DRIVE_MANAGEMENT_FLOW");
    ("google_drive_move", "DRIVE_MANAGEMENT_FLOW");
    ("google_drive_delete", "DRIVE_MANAGEMENT_FLOW");
    ("google_sheets_read", "SHEETS_MANAGEMENT_FLOW");
    ("google_sheets_write", "SHEETS_MANAGEMENT_FLOW");
    ("google_sheets_update", "SHEETS_MANAGEMENT_FLOW");
    ("google_sheets_append", "SHEETS_MANAGEMENT_FLOW");
    ("google_docs_read", "DOCS_MANAGEMENT_FLOW");
    ("google_docs_write", "DOCS_MANAGEMENT_FLOW");
    ("google_docs_create", "DOCS_MANAGEMENT_FLOW") ].

(** ** Parameter to query conversion

    Every field of an f-string is rendered by [py_str], in the order of the
    source, at the statement the f-string stands in. *)

Definition convert_params_to_user_query
    (tool_id : string) (params : pydict) : result string :=
  (* Google Calendar *)
  if String.eqb tool_id "google_calendar_create" then
    let summary := py_get params "summary" (PStr "event") in
    let start := py_get params "start" (PDict []) in
    let end_ := py_get params "end" (PDict []) in
    start_time <-
      match start with
      | PDict d => Ok (py_get d "dateTime" (PStr ""))
      | _ => s <- py_str start ;;; Ok (PStr s)
      end ;;;
    end_time <-
      match end_ with
      | PDict d => Ok (py_get d "dateTime" (PStr ""))
      | _ => s <- py_str end_ ;;; Ok (PStr s)
      end ;;;
    let description := py_get params "description" (PStr "") in
    let attendees := py_get params "attendees" (PList []) in
    summary_text <- py_str summary ;;;
    let query := "Create calendar event: " +:+ summary_text in
    query <-
      (if py_truthy start_time
       then s <- py_str start_time ;;; Ok (query +:+ " from " +:+ s)
       else Ok query) ;;;
    query <-
      (if py_truthy end_time
       then s <- py_str end_time ;;; Ok (query +:+ " to " +:+ s)
       else Ok query) ;;;
    query <-
      (if py_truthy description
       then s <- py_str description ;;;
            Ok (query +:+ " with description: " +:+ s)
       else Ok query) ;;;
    if py_truthy attendees then
      match attendees with
      | PList l =>
          joined <- str_join ", " l ;;;
          Ok (query +:+ " with attendees: " +:+ joined)
      | _ =>
          s <- py_str attendees ;;;
          Ok (query +:+ " with attendees: " +:+ s)
      end
    else Ok query
  else if String.eqb tool_id "google_calendar_list" then
    let time_min := py_get params "timeMin" (PStr "now") in
    let time_max := py_get params "timeMax" (PStr "future") in
    let max_results := py_get params "maxResults" (PInt 10) in
    s1 <- py_str time_min ;;;
    s2 <- py_str time_max ;;;
    s3 <- py_str max_results ;;;
    Ok ("List calendar events from " +:+ s1 +:+ " to " +:+ s2
        +:+ ", maximum " +:+ s3 +:+ " results")
  else if String.eqb tool_id "google_calendar_get" then
    let event_id := py_get params "eventId" (PStr "") in
    s <- py_str event_id ;;;
    Ok ("Get calendar event with ID: " +:+ s)
  else if String.eqb tool_id "google_calendar_update" then
    let event_id := py_get params "eventId" (PStr "") in
    let summary := py_get params "summary" (PStr "") in
    s1 <- py_str event_id ;;;
    s2 <- py_str summary ;;;
    Ok ("Update calendar event " +:+ s1 +:+ " with title: " +:+ s2)
  else if String.eqb tool_id "google_calendar_delete" then
    let event_id := py_get params "eventId" (PStr "") in
    s <- py_str event_id ;;;
    Ok ("Delete calendar event with ID: " +:+ s)
  (* Gmail *)
  else if String.eqb tool_id "gmail_send" then
    let to := py_get params "to" (PStr "") in
    let subject := py_get params "subject" (PStr "") in
    let body := py_get params "body" (PStr "") in
    let cc := py_get params "cc" PNone in
    let bcc := py_get params "bcc" PNone in
    to_text <- py_str to ;;;
    subject_text <- py_str subject ;;;
    let query := "Send email to " +:+ to_text +:+ " with subject '"
                 +:+ subject_text +:+ "'" in
    query <-
      (if py_truthy body then
         n <- py_len body ;;;
         if 100 <? n then
           cut <- py_slice_to 100 body ;;;
           s <- py_str cut ;;;
           Ok (query +:+ " and body: " +:+ s +:+ "...")
         else
           s <- py_str body ;;;
           Ok (query +:+ " and body: " +:+ s)
       else Ok query) ;;;
    query <-
      (if py_truthy cc
       then s <- py_str cc ;;; Ok (query +:+ ", CC: " +:+ s)
       else Ok query) ;;;
    query <-
      (if py_truthy bcc
       then s <- py_str bcc ;;; Ok (query +:+ ", BCC: " +:+ s)
       else Ok query) ;;;
    Ok query
  else if String.eqb tool_id "gmail_read" then
    let hours := py_get params "hours" (PInt 24) in
    let unread_only := py_get params "unread_only" (PBool true) in
    let max_results := py_get params "maxResults" (PInt 10) in
    s1 <- py_str hours ;;;
    s2 <- py_str max_results ;;;
    Ok ("Read " +:+ (if py_truthy unread_only then "unread" else "recent")
        +:+ " emails from the last " +:+ s1 +:+ " hours, maximum "
        +:+ s2 +:+ " results")
  else if String.eqb tool_id "gmail_search" then
    let query_param := py_get params "query" (PStr "") in
    s <- py_str query_param ;;;
    Ok ("Search emails with query: " +:+ s)
  else if String.eqb tool_id "gmail_reply" then
    let original_from := py_get params "original_from_email" (PStr "") in
    let original_subject := py_get params "original_subject" (PStr "") in
    let reply_body := py_get params "reply_body" (PStr "") in
    s1 <- py_str original_from ;;;
    s2 <- py_str original_subject ;;;
    cut <- py_slice_to 100 reply_body ;;;
    s3 <- py_str cut ;;;
    Ok ("Reply to email from " +:+ s1 +:+ " with subject '" +:+ s2
        +:+ "' and reply: " +:+ s3 +:+ "...")
  (* Google Drive *)
  else if String.eqb tool_id "google_drive_upload" then
    let file_name :=
      py_or (py_get params "fileName" PNone)
            (py_get params "name" (PStr "file")) in
    let folder_id := py_get params "folderId" (PStr "") in
    if py_truthy folder_id then
      s1 <- py_str file_name ;;;
      s2 <- py_str folder_id ;;;
      Ok ("Upload file " +:+ s1 +:+ " to Google Drive folder " +:+ s2)
    else
      s1 <- py_str file_name ;;;
      Ok ("Upload file " +:+ s1 +:+ " to Google Drive")
  else if String.eqb tool_id "google_drive_list" then
    let folder_id := py_get params "folderId" (PStr "") in
    let query := py_get params "query" (PStr "") in
    if py_truthy query then
      s <- py_str query ;;;
      Ok ("List files in Google Drive matching: " +:+ s)
    else if py_truthy folder_id then
      s <- py_str folder_id ;;;
      Ok ("List files in Google Drive folder " +:+ s)
    else Ok "List files in Google Drive"
  else if String.eqb tool_id "google_drive_download" then
    let file_id := py_get params "fileId" (PStr "") in
    s <- py_str file_id ;;;
    Ok ("Download file from Google Drive with ID: " +:+ s)
  else if String.eqb tool_id "google_drive_share" then
    let file_id := py_get params "fileId" (PStr "") in
    let email := py_get params "email" (PStr "") in
    s1 <- py_str file_id ;;;
    s2 <- py_str email ;;;
    Ok ("Share Google Drive file " +:+ s1 +:+ " with " +:+ s2)
  else if String.eqb tool_id "google_drive_create_folder" then
    let folder_name := py_get params "name" (PStr "New Folder") in
    let parent_id := py_get params "parentId" (PStr "") in
    if py_truthy parent_id then
      s1 <- py_str folder_name ;;;
      s2 <- py_str parent_id ;;;
      Ok ("Create folder '" +:+ s1 +:+ "' in Google Drive folder " +:+ s2)
    else
      s1 <- py_str folder_name ;;;
      Ok ("Create folder '" +:+ s1 +:+ "' in Google Drive")
  (* Google Sheets *)
  else if String.eqb tool_id "google_sheets_read" then
    let spreadsheet_id := py_get params "spreadsheetId" (PStr "") in
    let range_name := py_get params "range" (PStr "") in
    s1 <- py_str spreadsheet_id ;;;
    s2 <- py_str range_name ;;;
    Ok ("Read data from Google Sheets " +:+ s1 +:+ " range " +:+ s2)
  else if String.eqb tool_id "google_sheets_write" then
    let spreadsheet_id := py_get params "spreadsheetId" (PStr "") in
    let range_name := py_get params "range" (PStr "") in
    s1 <- py_str spreadsheet_id ;;;
    s2 <- py_str range_name ;;;
    Ok ("Write data to Google Sheets " +:+ s1 +:+ " range " +:+ s2)
  (* Google Docs *)
  else if String.eqb tool_id "google_docs_read" then
    let document_id := py_get params "documentId" (PStr "") in
    s <- py_str document_id ;;;
    Ok ("Read Google Docs document " +:+ s)
  else if String.eqb tool_id "google_docs_create" then
    let title := py_get params "title" (PStr "New Document") in
    s <- py_str title ;;;
    Ok ("Create Google Docs document with title: " +:+ s)
  (* Default: use params as JSON string *)
  else
    j <- json_dumps (PDict params) ;;;
    Ok ("Execute " +:+ tool_id +:+ " with parameters: " +:+ j).

(** ** Result parsing *)

(** The three-field dict every branch but the third builds. *)
Definition envelope (data message : pyval) : pyval :=
  PDict [("data", data); ("status", PStr "success"); ("message", message)].

Definition parse_crewai_result : pyval -> result pyval :=
  fun result =>
  match result with
  | PStr _ => Ok (envelope result result)
  | PObj _ _ _ (Some response) _ =>
      response_str <-
        (if py_truthy response then py_str response else py_str result) ;;;
      Ok (envelope (PStr response_str) (PStr response_str))
  | PDict _ => Ok result
  | PObj _ _ _ None (Some attrs) =>
      message <- py_str result ;;;
      Ok (envelope (PDict attrs) (PStr message))
  | _ =>
      data <- py_str result ;;;
      message <- py_str result ;;;
      Ok (envelope (PStr data) (PStr message))
  end.

(** ** Requests, responses and the process state *)

Record ToolExecuteRequest : Type := {
  toolId : string;
  params : pydict;
  userQuery : option string
}.

Record ToolExecuteResponse : Type := {
  success : bool;
  output : option pyval;
  error : option string;
  metadata : option pydict
}.

Record ToolListResponse : Type := {
  tools : list string;
  mappings : list (string * string);
  total : nat
}.

(** A [GoogleSuiteFlow] instance: its identity and the two arguments it was
    built from. *)
Record flow : Type := {
  flow_id : nat;
  init_name : string;
  init_api_key : string
}.

(** The [inputs] dict handed to [flow.kickoff]. *)
Record kickoff_inputs : Type := {
  user_query : string;
  crew_name : string;
  flow_name : string
}.

(** Calls that leave the module. *)
Inductive event : Type :=
  | EvGetenv (var : string)
  | EvConstruct (name api_key : string) (raised : option exn)
  | EvKickoff (f : flow) (inputs : kickoff_inputs).

Record state : Type := {
  _flow_cache : gmap string flow;
  environ : gmap string string;
  trace : list event
}.

(** What one request reads from the clock and from the interpreter: the
    elapsed seconds and the ISO timestamp put into [metadata], and the text
    of [traceback.format_exc()]. *)
Record ambient : Type := {
  execution_time_seconds : pyval;
  timestamp : string;
  format_exc : string
}.

Definition record (ev : event) (st : state) : state :=
  {| _flow_cache := _flow_cache st;
     environ := environ st;
     trace := trace st ++ [ev] |}.

Definition set_flow_cache (k : string) (f : flow) (st : state) : state :=
  {| _flow_cache := <[k := f]> (_flow_cache st);
     environ := environ st;
     trace := trace st |}.

(** [os.getenv(var)]. *)
Definition os_getenv (var : string) (st : state) : option string * state :=
  (environ st !! var, record (EvGetenv var) st).

Definition construction_of (ev : event) : option (option exn) :=
  match ev with
  | EvConstruct _ _ raised => Some raised
  | _ => None
  end.

Definition kickoff_of (ev : event) : option (flow * kickoff_inputs) :=
  match ev with
  | EvKickoff f inputs => Some (f, inputs)
  | _ => None
  end.

Definition getenv_of (ev : event) : option string :=
  match ev with
  | EvGetenv var => Some var
  | _ => None
  end.

(** Every constructor call so far, with what it raised. *)
Definition constructions (tr : list event) : list (option exn) :=
  omap construction_of tr.

(** The constructor calls that returned an instance. *)
Definition created (tr : list event) : nat :=
  length (filter (fun r => r = None) (constructions tr)).

Definition kickoffs (tr : list event) : list (flow * kickoff_inputs) :=
  omap kickoff_of tr.

Definition getenvs (tr : list event) : list string :=
  omap getenv_of tr.

(** The process right after import: [_flow_cache = {}], nothing called. *)
Definition process_start (env : gmap string string) : state :=
  {| _flow_cache := ∅; environ := env; trace := [] |}.

(** Sample worlds for the examples below: a constructor that always
    returns, one that always raises, and a flow that answers with the query
    it was given. *)
Definition init_ok : nat -> string -> string -> option exn :=
  fun _ _ _ => None.

Definition init_fails : nat -> string -> string -> option exn :=
  fun _ _ _ => Some (Exn Exception_ "router files missing").

Definition kickoff_echo : nat -> flow -> kickoff_inputs -> result pyval :=
  fun _ _ inputs => Ok (PStr (user_query inputs)).

Definition env_with_key : gmap string string :=
  {[ "OPENAI_API_KEY" := "sk-test" ]}.


Definition sample_ambient : ambient :=
  {| execution_time_seconds := PFloat 4609434218613702656 "1.5";
     timestamp := "2024-01-01T09:00:00";
     format_exc := "Traceback (most recent call last): ..." |}.

(** Lines 438 to 440 of the handler: the caller's [userQuery] when it is
    true (neither [None] nor empty), else the query generated from the
    parameters. *)
Definition resolve_user_query (request : ToolExecuteRequest) : result string :=
  match userQuery request with
  | Some q =>
      if negb (String.eqb q "") then Ok q
      else convert_params_to_user_query (toolId request) (params request)
  | None => convert_params_to_user_query (toolId request) (params request)
  end.

(** An [int] of 4301 digits, the first beyond the limit. *)
Definition huge_int : Z := int_str_threshold.

(** Sample requests, the flow the first successful call builds in the
    sample world, and the state that call leaves. *)
Definition gmail_read_request : ToolExecuteRequest :=
  {| toolId := "gmail_read"; params := []; userQuery := None |}.


Definition sample_flow : flow :=
  {| flow_id := 0; init_name := "Google Suite Flow";
     init_api_key := "sk-test" |}.

Definition state_after_first_call : state :=
  {| _flow_cache := {[ "google_suite" := sample_flow ]};
     environ := env_with_key;
     trace := [EvGetenv "OPENAI_API_KEY";
               EvConstruct "Google Suite Flow" "sk-test" None] |}.

(** ** The flow cache and the endpoints *)

Section Server.

(** [GoogleSuiteFlow(name=..., api_key=...)]: whether the n-th constructor
    call of the process raises, and what. *)
Variable GoogleSuiteFlow_init : nat -> string -> string -> option exn.

(** [flow.kickoff(inputs=...)]: what the n-th invocation of the process
    returns or raises. *)
Variable flow_kickoff : nat -> flow -> kickoff_inputs -> result pyval.

(** The handler calls [get_google_suite_flow] on the event-loop thread and
    nothing in it awaits, so calls to it follow one another. *)
Definition get_google_suite_flow (st : state) : result flow * state :=
  let cache_key := "google_suite" in
  let '(filled, st) :=
    match _flow_cache st !! cache_key with
    | Some _ => (Ok tt, st)
    | None =>
        let '(api_key, st) := os_getenv "OPENAI_API_KEY" st in
        let not_set :=
          Raise (Exn ValueError
                   "OPENAI_API_KEY not set in environment variables") in
        match api_key with
        | None => (not_set, st)
        | Some api_key =>
            if String.eqb api_key "" then (not_set, st)
            else
              let n := length (constructions (trace st)) in
              let name := "Google Suite Flow" in
              match GoogleSuiteFlow_init n name api_key with
              | None =>
                  let f := {| flow_id := n; init_name := name;
                              init_api_key := api_key |} in
                  (Ok tt,
                   set_flow_cache cache_key f
                     (record (EvConstruct name api_key None) st))
              | Some e =>
                  (Raise (Exn ValueError
                            ("Flow initialization failed: " +:+ exn_str e)),
                   record (EvConstruct name api_key (Some e)) st)
              end
        end
    end in
  match filled with
  | Raise e => (Raise e, st)
  | Ok _ =>
      match _flow_cache st !! cache_key with
      | Some f => (Ok f, st)
      | None => (Raise (Exn KeyError (str_repr cache_key)), st)
      end
  end.

(** The body of the handler's [try].  Of its log lines the model keeps what
    can raise: the [json.dumps] of the parameters in the first lines, and the
    slice and rendering of the message in the last one. *)
Definition execute_try (amb : ambient) (request : ToolExecuteRequest)
    (st : state) : result ToolExecuteResponse * state :=
  let tool_id := toolId request in
  let params := params request in
  (* print(f"Params: {json.dumps(params, indent=2, default=str)}") *)
  match json_dumps_indent2 (PDict params) with
  | Raise e => (Raise e, st)
  | Ok _ =>
  (* Validate tool ID *)
  if negb (dict_mem TOOL_TO_CREW_MAPPING tool_id) then
    let available := map PStr (dict_keys TOOL_TO_CREW_MAPPING) in
    match py_str (PList available) with
    | Raise e => (Raise e, st)
    | Ok available_text =>
        let error_msg := "Unknown tool ID: " +:+ tool_id
                         +:+ ". Available tools: " +:+ available_text in
        (Ok {| success := false; output := None; error := Some error_msg;
               metadata := Some [("available_tools", PList available)] |},
         st)
    end
  else
    (* Get user query (either provided or generated from params) *)
    match resolve_user_query request with
    | Raise e => (Raise e, st)
    | Ok user_query =>
        (* Get crew name from tool mapping *)
        let crew_name :=
          match dict_get TOOL_TO_CREW_MAPPING tool_id with
          | Some c => c
          | None => "GOOGLE_SUITE_FLOW"
          end in
        match get_google_suite_flow st with
        | (Raise e, st) => (Raise e, st)
        | (Ok flow, st) =>
            let inputs := {| user_query := user_query;
                             crew_name := crew_name;
                             flow_name := crew_name |} in
            let n := length (kickoffs (trace st)) in
            let st := record (EvKickoff flow inputs) st in
            match flow_kickoff n flow inputs with
            | Raise e => (Raise e, st)
            | Ok result =>
                (* Parse result *)
                match parse_crewai_result result with
                | Raise e => (Raise e, st)
                | Ok parsed_result =>
                    let message :=
                      match parsed_result with
                      | PDict d => py_get d "message" (PStr "N/A")
                      | _ => PStr "N/A"
                      end in
                    (* print(f"Response: {message[:200]}...") *)
                    match (cut <- py_slice_to 200 message ;;; py_str cut) with
                    | Raise e => (Raise e, st)
                    | Ok _ =>
                        (Ok {| success := true;
                               output := Some parsed_result;
                               error := None;
                               metadata :=
                                 Some [("tool_id", PStr tool_id);
                                       ("crew_name", PStr crew_name);
                                       ("execution_time_seconds",
                                        execution_time_seconds amb);
                                       ("timestamp",
                                        PStr (timestamp amb))] |},
                         st)
                    end
                end
            end
        end
    end
  end.

Definition execute_google_suite_tool (amb : ambient)
    (request : ToolExecuteRequest) (st : state)
    : ToolExecuteResponse * state :=
  match execute_try amb request st with
  | (Ok response, st) => (response, st)
  | (Raise e, st) =>
      if is_ValueError e then
        (* except ValueError *)
        ({| success := false; output := None;
            error := Some ("Configuration error: " +:+ exn_str e);
            metadata := None |}, st)
      else
        (* except Exception *)
        ({| success := false; output := None;
            error := Some ("Error executing tool " +:+ toolId request
                           +:+ ": " +:+ exn_str e);
            metadata := Some [("traceback", PStr (format_exc amb))] |}, st)
  end.

(** [GET /health], given the clock's ISO timestamp. *)
Definition health_check (now : string) : list (string * string) :=
  [("status", "healthy"); ("service", "CrewAI Tool Wrapper API");
   ("timestamp", now); ("version", "1.0.0")].

(** [GET /api/tools/google-suite/list]. *)
Definition list_available_tools : ToolListResponse :=
  {| tools := dict_keys TOOL_TO_CREW_MAPPING;
     mappings := TOOL_TO_CREW_MAPPING;
     total := length TOOL_TO_CREW_MAPPING |}.

(** What can happen to the process after start-up: a request to one of the
    three endpoints, or a direct call of [get_google_suite_flow]. *)
Inductive call : Type :=
  | CallHealth (now : string)
  | CallListTools
  | CallExecute (amb : ambient) (request : ToolExecuteRequest)
  | CallGetFlow.

Definition step (st : state) (c : call) : state :=
  match c with
  | CallHealth _ => st
  | CallListTools => st
  | CallExecute amb request => snd (execute_google_suite_tool amb request st)
  | CallGetFlow => snd (get_google_suite_flow st)
  end.

Definition run (cs : list call) (st : state) : state :=
  fold_left step cs st.

End Server.

(** ** Predicates of the statements *)

Definition is_str (v : pyval) : bool :=
  match v with
  | PStr _ => true
  | _ => false
  end.

(** [v[:n]] is defined: [v] is a [str] or a [list]. *)
Definition sliceable (v : pyval) : bool :=
  match v with
  | PStr _ | PList _ => true
  | _ => false
  end.

(** [z] has at most 4300 decimal digits. *)
Definition int_within_limit (z : Z) : bool :=
  negb (int_str_threshold <=? Z.abs z)%Z.

(** No [int] in [v], at any depth of its lists and dicts, has more than
    4300 digits. *)
Fixpoint ints_within_limit (v : pyval) : bool :=
  match v with
  | PInt z => int_within_limit z
  | PList l => forallb ints_within_limit l
  | PDict d =>
      forallb (fun kv => match kv with
                         | (_, x) => ints_within_limit x
                         end) d
  | _ => true
  end.

(** What [convert_params_to_user_query] asks of the parameters it
    measures, slices or joins: a [body] of [gmail_send] that is false, a
    [str], a [list] or a [dict] of at most 100 entries; a [reply_body] of
    [gmail_reply] that can be sliced; an [attendees] of
    [google_calendar_create] that is no list or a list of [str]. *)
Definition synthesizer_accepts (tool_id : string) (params : pydict) : bool :=
  if String.eqb tool_id "gmail_send" then
    let body := py_get params "body" (PStr "") in
    negb (py_truthy body)
    || match body with
       | PStr _ | PList _ => true
       | PDict d => length d <=? 100
       | _ => false
       end
  else if String.eqb tool_id "gmail_reply"
  then sliceable (py_get params "reply_body" (PStr ""))
  else if String.eqb tool_id "google_calendar_create" then
    match py_get params "attendees" (PList []) with
    | PList l => forallb is_str l
    | _ => true
    end
  else true.

(** The tool identifiers [convert_params_to_user_query] has a branch for. *)
Definition dedicated_rules : list string :=
  [ "google_calendar_create"; "google_calendar_list"; "google_calendar_get";
    "google_calendar_update"; "google_calendar_delete";
    "gmail_send"; "gmail_read"; "gmail_search"; "gmail_reply";
    "google_drive_upload"; "google_drive_list"; "google_drive_download";
    "google_drive_share"; "google_drive_create_folder";
    "google_sheets_read"; "google_sheets_write";
    "google_docs_read"; "google_docs_create" ].

(** The final [return] of [convert_params_to_user_query]. *)
Definition fallback_sentence (tool_id : string) (params : pydict)
    : result string :=
  j <- json_dumps (PDict params) ;;;
  Ok ("Execute " +:+ tool_id +:+ " with parameters: " +:+ j).

(** The first character of [s] is not [c0]; in particular [s] is not
    empty. *)
Definition first_char_not (c0 : ascii) (s : string) : Prop :=
  match s with
  | String c _ => c <> c0
  | EmptyString => False
  end.

(** [P] holds of what [r] returns, if it returns. *)
Definition ok_with {A : Type} (P : A -> Prop) (r : result A) : Prop :=
  match r with
  | Ok a => P a
  | Raise _ => True
  end.

(** [P] holds of what [r] raises, if it raises. *)
Definition raise_with {A : Type} (P : exn -> Prop) (r : result A) : Prop :=
  match r with
  | Ok _ => True
  | Raise e => P e
  end.

(** [r] is a normal return. *)
Definition returns {A : Type} (r : result A) : Prop :=
  exists a, r = Ok a.

(** The registry identifiers [convert_params_to_user_query] has no branch
    for. *)
Definition registered_without_rule : list string :=
  [ "google_calendar_quick_add"; "google_calendar_freebusy";
    "gmail_draft"; "gmail_labels";
    "google_drive_move"; "google_drive_delete";
    "google_sheets_update"; "google_sheets_append";
    "google_docs_write" ].

(** Flows built so far: none while the cache is empty, one once it is
    filled. *)
Definition cache_counts (st : state) : Prop :=
  match _flow_cache st !! "google_suite" with
  | Some _ => created (trace st) = 1
  | None => created (trace st) = 0
  end.

(** [s in t] on strings. *)
Definition Substring (s t : string) : Prop :=
  exists before after, t = before +:+ s +:+ after.

(** A text the JSON encoder writes as it is between the quotes: printable
    ASCII with no double quote and no backslash. *)
Definition json_plain_char (c : ascii) : bool :=
  let n := N_of_ascii c in
  (32 <=? n)%N && (n <=? 126)%N
  && negb (Ascii.eqb c dquote) && negb (Ascii.eqb c "\"%char).

Fixpoint json_plain (s : string) : bool :=
  match s with
  | EmptyString => true
  | String c s' => json_plain_char c && json_plain s'
  end.

(** The double quote, as a text. *)
Definition dq : string := String dquote EmptyString.

(** [s] between double quotes. *)
Definition quoted (s : string) : string := dq +:+ s +:+ dq.

(** Parameters of every kind, and the text [json.dumps(..., default=str)]
    writes for them: the quote is escaped, the code point 233 is written as
    an escape, the [datetime] as the JSON string of its [str()]. *)
Definition fallback_sample_params : pydict :=
  [ ("n", PInt 3); ("ok", PBool true); ("none", PNone);
    ("name", PStr ("a" +:+ dq +:+ "b"));
    ("xs", PList [PInt 1; PStr (String "233"%char EmptyString)]);
    ("when", PObj "datetime" "2024-01-01 09:00:00"
               "datetime.datetime(2024, 1, 1, 9, 0)" None None);
    ("opts", PDict [("deep", PFloat 4609434218613702656 "1.5")]);
    ("empty", PList []) ].

Definition fallback_sample_json : string :=
  "{" +:+ quoted "n" +:+ ": 3, " +:+ quoted "ok" +:+ ": true, "
  +:+ quoted "none" +:+ ": null, "
  +:+ quoted "name" +:+ ": " +:+ quoted ("a\" +:+ dq +:+ "b") +:+ ", "
  +:+ quoted "xs" +:+ ": [1, " +:+ quoted "\u00e9" +:+ "], "
  +:+ quoted "when" +:+ ": " +:+ quoted "2024-01-01 09:00:00" +:+ ", "
  +:+ quoted "opts" +:+ ": {" +:+ quoted "deep" +:+ ": 1.5}, "
  +:+ quoted "empty" +:+ ": []}".

(** A body of 150 characters, and its first 100. *)
Definition body150 : string :=
  "aaaaaaaaaabbbbbbbbbbccccccccccddddddddddeeeeeeeeeeffffffffffgggggggggghhhhhhhhhhiiiiiiiiiijjjjjjjjjjkkkkkkkkkkllllllllllmmmmmmmmmmnnnnnnnnnnoooooooooo".

Definition body150_head : string :=
  "aaaaaaaaaabbbbbbbbbbccccccccccddddddddddeeeeeeeeeeffffffffffgggggggggghhhhhhhhhhiiiiiiiiiijjjjjjjjjj".

(** The parameters each dedicated rule reads. *)
Definition rule_parameters : list (string * list string) :=
  [ ("google_calendar_create",
     ["summary"; "start"; "end"; "description"; "attendees"]);
    ("google_calendar_list", ["timeMin"; "timeMax"; "maxResults"]);
    ("google_calendar_get", ["eventId"]);
    ("google_calendar_update", ["eventId"; "summary"]);
    ("google_calendar_delete", ["eventId"]);
    ("gmail_send", ["to"; "subject"; "body"; "cc"; "bcc"]);
    ("gmail_read", ["hours"; "unread_only"; "maxResults"]);
    ("gmail_search", ["query"]);
    ("gmail_reply", ["original_from_email"; "original_subject"; "reply_body"]);
    ("google_drive_upload", ["fileName"; "name"; "folderId"]);
    ("google_drive_list", ["folderId"; "query"]);
    ("google_drive_download", ["fileId"]);
    ("google_drive_share", ["fileId"; "email"]);
    ("google_drive_create_folder", ["name"; "parentId"]);
    ("google_sheets_read", ["spreadsheetId"; "range"]);
    ("google_sheets_write", ["spreadsheetId"; "range"]);
    ("google_docs_read", ["documentId"]);
    ("google_docs_create", ["title"]) ].

(** The values [convert_params_to_user_query] can render for [tool_id]:
    those of the parameters its rule reads, or the whole mapping where the
    final [return] answers. *)
Definition rendered_values (tool_id : string) (params : pydict)
    : list pyval :=
  match dict_get rule_parameters tool_id with
  | Some keys => omap (dict_get params) keys
  | None => [PDict params]
  end.

(** No [int] of more than 4300 digits in what the synthesizer can render. *)
Definition renders_within_limit (tool_id : string) (params : pydict) : bool :=
  forallb ints_within_limit (rendered_values tool_id params).

(** What [parse_crewai_result] has to render of a result can be rendered:
    nothing of a [str] or a dict, the [response] attribute of an object that
    has one, the [str()] of an object otherwise, the result itself in the
    last branch. *)
Definition normalizer_accepts (result : pyval) : bool :=
  match result with
  | PStr _ | PDict _ => true
  | PObj _ _ _ (Some response) _ => ints_within_limit response
  | PObj _ _ _ None _ => true
  | _ => ints_within_limit result
  end.



(** The identifiers of the registry, in its order, and the text [str()]
    gives for their list. *)
Definition registry_identifiers : list string :=
  [ "google_calendar_create"; "google_calendar_list"; "google_calendar_get";
    "google_calendar_update"; "google_calendar_delete";
    "google_calendar_quick_add"; "google_calendar_freebusy";
    "gmail_send"; "gmail_read"; "gmail_search"; "gmail_draft";
    "gmail_labels"; "gmail_reply";
    "google_drive_upload"; "google_drive_download"; "google_drive_list";
    "google_drive_share"; "google_drive_create_folder"; "google_drive_move";
    "google_drive_delete";
    "google_sheets_read"; "google_sheets_write"; "google_sheets_update";
    "google_sheets_append";
    "google_docs_read"; "google_docs_write"; "google_docs_create" ].

Definition available_tools_text : string :=
  "['google_calendar_create', 'google_calendar_list', 'google_calendar_get', 'google_calendar_update', 'google_calendar_delete', 'google_calendar_quick_add', 'google_calendar_freebusy', 'gmail_send', 'gmail_read', 'gmail_search', 'gmail_draft', 'gmail_labels', 'gmail_reply', 'google_drive_upload', 'google_drive_download', 'google_drive_list', 'google_drive_share', 'google_drive_create_folder', 'google_drive_move', 'google_drive_delete', 'google_sheets_read', 'google_sheets_write', 'google_sheets_update', 'google_sheets_append', 'google_docs_read', 'google_docs_write', 'google_docs_create']".

(** The envelopes of the handler's two [except] branches. *)
Definition configuration_error (text : string) : ToolExecuteResponse :=
  {| success := false; output := None;
     error := Some ("Configuration error: " +:+ text);
     metadata := None |}.

Definition execution_error (amb : ambient) (tool_id text : string)
    : ToolExecuteResponse :=
  {| success := false; output := None;
     error := Some ("Error executing tool " +:+ tool_id +:+ ": " +:+ text);
     metadata := Some [("traceback", PStr (format_exc amb))] |}.




Definition init_fails_once : nat -> string -> string -> option exn :=
  fun n _ _ =>
    match n with
    | O => Some (Exn Exception_ "router files missing")
    | S _ => None
    end.

Definition env_empty_key : gmap string string :=
  {[ "OPENAI_API_KEY" := "" ]}.

(** The cache is empty or holds, under its one key, a flow built under the
    fixed name with the API key of the environment. *)
Definition cache_from_env (env : gmap string string) (st : state) : Prop :=
  environ st = env /\
  (_flow_cache st = ∅ \/
   exists f, _flow_cache st = {[ "google_suite" := f ]} /\
             init_name f = "Google Suite Flow" /\
             env !! "OPENAI_API_KEY" = Some (init_api_key f) /\
             init_api_key f <> "").

(** Every invocation so far went to the flow in the cache, with the same
    registry flow name as [crew_name] and [flow_name]. *)
Definition kickoffs_use_cache (st : state) : Prop :=
  forall f inputs,
    In (f, inputs) (kickoffs (trace st)) ->
    _flow_cache st !! "google_suite" = Some f /\
    crew_name inputs = flow_name inputs /\
    In (crew_name inputs) (map snd TOOL_TO_CREW_MAPPING).

(** Sample requests and inputs of the further properties. *)
Definition gmail_reply_number_request : ToolExecuteRequest :=
  {| toolId := "gmail_reply"; params := [("reply_body", PInt 5)];
     userQuery := None |}.

Definition gmail_read_inputs : kickoff_inputs :=
  {| user_query :=
       "Read unread emails from the last 24 hours, maximum 10 results";
     crew_name := "EMAIL_MANAGEMENT_FLOW";
     flow_name := "EMAIL_MANAGEMENT_FLOW" |}.

(** * Properties *)

(** ** Strings and dicts *)

Lemma append_String (c : ascii) (s t : string) :
  String c s +:+ t = String c (s +:+ t).
Proof. reflexivity. Qed.

Lemma append_assoc (s t u : string) : (s +:+ t) +:+ u = s +:+ t +:+ u.
Proof.
  induction s as [| c s IH]; [reflexivity |].
  rewrite !append_String. by rewrite IH.
Qed.

Lemma append_nil_r (s : string) : s +:+ "" = s.
Proof.
  induction s as [| c s IH]; [reflexivity |].
  rewrite append_String. by rewrite IH.
Qed.

Lemma append_nil_l (s : string) : "" +:+ s = s.
Proof. reflexivity. Qed.

Ltac norm_append :=
  repeat rewrite ?append_assoc, ?append_String, ?append_nil_l, ?append_nil_r.

Lemma Substring_refl (s : string) : Substring s s.
Proof. exists "", "". by rewrite append_nil_r. Qed.

Lemma Substring_app_l (s t u : string) :
  Substring s t -> Substring s (u +:+ t).
Proof.
  intros (a & b & ->). exists (u +:+ a), b. by rewrite append_assoc.
Qed.

Lemma Substring_app_r (s t u : string) :
  Substring s t -> Substring s (t +:+ u).
Proof.
  intros (a & b & ->). exists a, (b +:+ u). by rewrite !append_assoc.
Qed.

Lemma Substring_String (s t : string) (c : ascii) :
  Substring s t -> Substring s (String c t).
Proof. apply (Substring_app_l s t (String c "")). Qed.

Lemma Substring_trans (s t u : string) :
  Substring s t -> Substring t u -> Substring s u.
Proof.
  intros Hst (a & b & ->). by apply Substring_app_l, Substring_app_r.
Qed.

(** Every item of a joined list shows in the joined text. *)
Lemma concat_In_Substring (sep x : string) (l : list string) :
  In x l -> Substring x (String.concat sep l).
Proof.
  induction l as [| y l IH]; [contradiction |].
  intros [-> | Hin].
  - destruct l; [apply Substring_refl |].
    cbn [String.concat]. apply Substring_app_r, Substring_refl.
  - destruct l as [| z l]; [contradiction |].
    change (String.concat sep (y :: z :: l))
      with (y +:+ sep +:+ String.concat sep (z :: l)).
    by apply Substring_app_l, Substring_app_l, IH.
Qed.

Lemma append_nonempty_l (s t : string) : s <> "" -> s +:+ t <> "".
Proof. destruct s; [congruence | discriminate]. Qed.

Lemma dict_mem_In {V : Type} (d : list (string * V)) (k : string) :
  dict_mem d k = true <-> In k (dict_keys d).
Proof.
  unfold dict_mem. induction d as [| [k' v] d IH]; simpl.
  - split; [discriminate | tauto].
  - destruct (String.eqb_spec k k') as [-> | Hne].
    + split; auto.
    + rewrite IH. split; [tauto |]. intros [Heq | Hin]; congruence.
Qed.

Ltac in_list := simpl; repeat (first [left; reflexivity | right]).

Ltac nonempty := repeat apply append_nonempty_l; discriminate.

(** ** Fallible code *)

Lemma returns_Ok {A : Type} (a : A) : returns (Ok a).
Proof. by exists a. Qed.

Lemma returns_if {A : Type} (b : bool) (r1 r2 : result A) :
  returns r1 -> returns r2 -> returns (if b then r1 else r2).
Proof. by destruct b. Qed.

Lemma returns_bind {A B : Type} (r : result A) (k : A -> result B) :
  returns r -> (forall a, returns (k a)) -> returns (bind r k).
Proof. intros [a ->] Hk. apply Hk. Qed.

(** A bind returns when its first part returns something of which [Q]
    holds and the rest returns on every such thing. *)
Lemma returns_bind_with {A B : Type} (Q : A -> Prop)
    (r : result A) (k : A -> result B) :
  returns r -> ok_with Q r -> (forall a, Q a -> returns (k a)) ->
  returns (bind r k).
Proof. intros [a ->] HQ Hk. by apply Hk. Qed.

Lemma returns_bind_inv {A B : Type} (r : result A) (k : A -> result B) :
  returns (bind r k) -> exists a, r = Ok a /\ returns (k a).
Proof. destruct r as [a | e]; [by exists a | intros [b Hb]; discriminate]. Qed.

Lemma not_returns_Raise {A : Type} (e : exn) : ~ returns (@Raise A e).
Proof. intros [a Ha]. discriminate. Qed.

Lemma not_returns_bind {A B : Type} (r : result A) (k : A -> result B) :
  (forall a, ~ returns (k a)) -> ~ returns (bind r k).
Proof. intros Hk [a [_ Ha]]%returns_bind_inv. by apply (Hk a). Qed.

Lemma not_returns_bind_l {A B : Type} (r : result A) (k : A -> result B) :
  ~ returns r -> ~ returns (bind r k).
Proof. intros Hr [a [Ha _]]%returns_bind_inv. apply Hr. by exists a. Qed.

Lemma ok_with_Ok {A : Type} (P : A -> Prop) (a : A) : P a -> ok_with P (Ok a).
Proof. exact id. Qed.

Lemma ok_with_if {A : Type} (P : A -> Prop) (b : bool) (r1 r2 : result A) :
  ok_with P r1 -> ok_with P r2 -> ok_with P (if b then r1 else r2).
Proof. by destruct b. Qed.

Lemma ok_with_bind {A B : Type} (Q : A -> Prop) (P : B -> Prop)
    (r : result A) (k : A -> result B) :
  ok_with Q r -> (forall a, Q a -> ok_with P (k a)) -> ok_with P (bind r k).
Proof. destruct r; simpl; auto. Qed.

Lemma ok_with_bind_any {A B : Type} (P : B -> Prop)
    (r : result A) (k : A -> result B) :
  (forall a, ok_with P (k a)) -> ok_with P (bind r k).
Proof. destruct r; simpl; auto. Qed.

Lemma ok_with_elim {A : Type} (P : A -> Prop) (r : result A) (a : A) :
  ok_with P r -> r = Ok a -> P a.
Proof. by intros H ->. Qed.

Lemma raise_with_Ok {A : Type} (P : exn -> Prop) (a : A) :
  raise_with P (Ok a).
Proof. exact I. Qed.

Lemma raise_with_returns {A : Type} (P : exn -> Prop) (r : result A) :
  returns r -> raise_with P r.
Proof. by intros [a ->]. Qed.

Lemma raise_with_if {A : Type} (P : exn -> Prop) (b : bool)
    (r1 r2 : result A) :
  raise_with P r1 -> raise_with P r2 -> raise_with P (if b then r1 else r2).
Proof. by destruct b. Qed.

Lemma raise_with_bind {A B : Type} (P : exn -> Prop)
    (r : result A) (k : A -> result B) :
  raise_with P r -> (forall a, raise_with P (k a)) -> raise_with P (bind r k).
Proof. destruct r; simpl; auto. Qed.

Lemma raise_with_bind_with {A B : Type} (P : exn -> Prop) (Q : A -> Prop)
    (r : result A) (k : A -> result B) :
  raise_with P r -> ok_with Q r -> (forall a, Q a -> raise_with P (k a)) ->
  raise_with P (bind r k).
Proof. destruct r; simpl; auto. Qed.

Lemma mapM_returns {A B : Type} (f : A -> result B) (l : list A) :
  Forall (fun x => returns (f x)) l <-> returns (mapM f l).
Proof.
  induction l as [| x l IH]; simpl.
  - split; [intros; apply returns_Ok | constructor].
  - split.
    + intros [Hx Hl]%Forall_cons. apply returns_bind_with with (Q := fun _ => True);
        [done | by destruct Hx as [? ->] |].
      intros y _. apply returns_bind; [by apply IH | intros; apply returns_Ok].
    + intros (y & Hy & (ys & Hys & _)%returns_bind_inv)%returns_bind_inv.
      constructor; [by exists y | apply IH; by exists ys].
Qed.

Lemma mapM_raise_with {A B : Type} (P : exn -> Prop) (f : A -> result B)
    (l : list A) :
  Forall (fun x => raise_with P (f x)) l -> raise_with P (mapM f l).
Proof.
  induction 1 as [| x l Hx Hl IH]; simpl; [exact I |].
  apply raise_with_bind; [exact Hx | intros y].
  apply raise_with_bind; [exact IH | intros; exact I].
Qed.

(** ** Values: induction through lists and dicts *)

Section PyvalInduction.

Variable P : pyval -> Prop.
Hypothesis HNone : P PNone.
Hypothesis HBool : forall b, P (PBool b).
Hypothesis HInt : forall z, P (PInt z).
Hypothesis HFloat : forall bits r, P (PFloat bits r).
Hypothesis HStr : forall s, P (PStr s).
Hypothesis HList : forall l, Forall P l -> P (PList l).
Hypothesis HDict : forall d, Forall (fun kv => P (snd kv)) d -> P (PDict d).
Hypothesis HObj : forall tn sf rf response attrs,
  P (PObj tn sf rf response attrs).

Lemma pyval_nested_ind (v : pyval) : P v.
Proof.
  revert v. fix IH 1. intros [| b | z | bits r | s | l | d | tn sf rf rs ats].
  - apply HNone.
  - apply HBool.
  - apply HInt.
  - apply HFloat.
  - apply HStr.
  - apply HList. induction l as [| x l IHl]; constructor; [apply IH | exact IHl].
  - apply HDict. induction d as [| [k x] d IHd]; constructor;
      [apply IH | exact IHd].
  - apply HObj.
Qed.

End PyvalInduction.

(** ** Rendering: the digit limit is all that can go wrong *)

Lemma int_str_threshold_spec :
  int_str_threshold = (10 ^ int_max_str_digits)%Z.
Proof. vm_compute. reflexivity. Qed.

Lemma int_str_returns (z : Z) :
  returns (int_str z) <-> int_within_limit z = true.
Proof.
  unfold int_str, int_within_limit.
  destruct (int_str_threshold <=? Z.abs z)%Z; split; try done.
  - by intros ?%not_returns_Raise.
  - intros; apply returns_Ok.
Qed.

Lemma int_str_raises (z : Z) :
  raise_with (fun e => exn_type e = ValueError) (int_str z).
Proof.
  unfold int_str. by destruct (int_str_threshold <=? Z.abs z)%Z.
Qed.

Lemma int_str_huge :
  int_str huge_int
  = Raise (Exn ValueError
             "Exceeds the limit (4300 digits) for integer string conversion; use sys.set_int_max_str_digits() to increase the limit").
Proof. reflexivity. Qed.

Lemma forallb_Forall_iff {A : Type} (P : A -> Prop) (f : A -> bool)
    (l : list A) :
  Forall (fun x => P x <-> f x = true) l ->
  (Forall P l <-> forallb f l = true).
Proof.
  induction 1 as [| x l Hx Hl IH]; simpl.
  - split; [done | constructor].
  - rewrite Forall_cons, andb_true_iff. tauto.
Qed.

Lemma returns_bind_Ok {A B : Type} (r : result A) (g : A -> B) :
  returns (bind r (fun a => Ok (g a))) <-> returns r.
Proof.
  destruct r as [a | e]; simpl; [split; intros; apply returns_Ok |].
  split; by intros ?%not_returns_Raise.
Qed.

Lemma py_repr_returns (v : pyval) :
  returns (py_repr v) <-> ints_within_limit v = true.
Proof.
  induction v as [| [] | z | bits r | s | l IH | d IH | tn sf rf rs ats]
    using pyval_nested_ind; cbn [py_repr ints_within_limit];
    try (split; [done | intros; apply returns_Ok]).
  - apply int_str_returns.
  - rewrite returns_bind_Ok, <- mapM_returns. by apply forallb_Forall_iff.
  - rewrite returns_bind_Ok, <- mapM_returns. apply forallb_Forall_iff.
    eapply Forall_impl; [exact IH |]. intros [k x] Hx.
    by rewrite returns_bind_Ok.
Qed.

Lemma py_str_returns (v : pyval) :
  returns (py_str v) <-> ints_within_limit v = true.
Proof.
  destruct v; try apply py_repr_returns;
    (split; [done | intros; apply returns_Ok]).
Qed.

Lemma json_encode_returns (indent : option nat) (v : pyval) (level : nat) :
  returns (json_encode indent level v) <-> ints_within_limit v = true.
Proof.
  revert level.
  induction v as [| [] | z | bits r | s | l IH | d IH | tn sf rf rs ats]
    using pyval_nested_ind; intros level;
    cbn [json_encode ints_within_limit];
    try (split; [done | intros; apply returns_Ok]).
  - apply int_str_returns.
  - rewrite returns_bind_Ok, <- mapM_returns. apply forallb_Forall_iff.
    eapply Forall_impl; [exact IH |]. by intros x Hx.
  - rewrite returns_bind_Ok, <- mapM_returns. apply forallb_Forall_iff.
    eapply Forall_impl; [exact IH |]. intros [k x] Hx.
    by rewrite returns_bind_Ok.
Qed.

(** Rendering raises nothing but the [ValueError] of the digit limit. *)
Lemma py_repr_raises (v : pyval) :
  raise_with (fun e => exn_type e = ValueError) (py_repr v).
Proof.
  induction v as [| [] | z | bits r | s | l IH | d IH | tn sf rf rs ats]
    using pyval_nested_ind; cbn [py_repr]; try exact I.
  - apply int_str_raises.
  - apply raise_with_bind; [by apply mapM_raise_with | intros; exact I].
  - apply raise_with_bind; [| intros; exact I].
    apply mapM_raise_with. eapply Forall_impl; [exact IH |].
    intros [k x] Hx. apply raise_with_bind; [exact Hx | intros; exact I].
Qed.

Lemma py_str_raises (v : pyval) :
  raise_with (fun e => exn_type e = ValueError) (py_str v).
Proof. destruct v; try apply py_repr_raises; exact I. Qed.

Lemma json_encode_raises (indent : option nat) (v : pyval) (level : nat) :
  raise_with (fun e => exn_type e = ValueError) (json_encode indent level v).
Proof.
  revert level.
  induction v as [| [] | z | bits r | s | l IH | d IH | tn sf rf rs ats]
    using pyval_nested_ind; intros level; cbn [json_encode]; try exact I.
  - apply int_str_raises.
  - apply raise_with_bind; [| intros; exact I].
    apply mapM_raise_with. eapply Forall_impl; [exact IH |]. by intros x Hx.
  - apply raise_with_bind; [| intros; exact I].
    apply mapM_raise_with. eapply Forall_impl; [exact IH |].
    intros [k x] Hx. apply raise_with_bind; [apply Hx | intros; exact I].
Qed.

(** ** Values within the limit *)

Lemma ints_within_limit_get (d : pydict) (k : string) (default : pyval) :
  ints_within_limit (PDict d) = true ->
  ints_within_limit default = true ->
  ints_within_limit (py_get d k default) = true.
Proof.
  intros Hd Hdef. unfold py_get.
  destruct (dict_get d k) as [v |] eqn:Hk; [| done].
  cbn [ints_within_limit] in Hd. rewrite forallb_forall in Hd.
  induction d as [| [k' v'] d IH]; [discriminate |]. simpl in Hk.
  destruct (String.eqb k k').
  - injection Hk as <-. apply (Hd (k', v')). by left.
  - apply IH; [| done]. intros kv Hkv. apply Hd. by right.
Qed.

Lemma ints_within_limit_or (x y : pyval) :
  ints_within_limit x = true -> ints_within_limit y = true ->
  ints_within_limit (py_or x y) = true.
Proof. unfold py_or. by destruct (py_truthy x). Qed.

Lemma ints_within_limit_slice (n : nat) (v : pyval) :
  ints_within_limit v = true ->
  ok_with (fun w => ints_within_limit w = true) (py_slice_to n v).
Proof.
  destruct v; try exact (fun _ => I); cbn [py_slice_to ok_with]; [done |].
  cbn [ints_within_limit]. rewrite !forallb_forall.
  intros Hl x Hx. apply Hl. apply list_elem_of_In in Hx.
  apply list_elem_of_In. by eapply subseteq_take.
Qed.
(** ** The registry and the rules of the synthesizer *)

Lemma dedicated_rules_registered tool_id :
  In tool_id dedicated_rules -> dict_mem TOOL_TO_CREW_MAPPING tool_id = true.
Proof.
  unfold dedicated_rules. simpl.
  intros H. repeat (destruct H as [<- | H]; [reflexivity |]). contradiction.
Qed.

Lemma convert_without_rule tool_id params :
  ~ In tool_id dedicated_rules ->
  convert_params_to_user_query tool_id params
  = fallback_sentence tool_id params.
Proof.
  intros Hno. unfold convert_params_to_user_query.
  repeat match goal with
  | |- context [String.eqb tool_id ?s] =>
      destruct (String.eqb_spec tool_id s) as [-> | _];
      [exfalso; apply Hno; solve [in_list] |]
  end.
  reflexivity.
Qed.

Lemma registry_split tool_id :
  dict_mem TOOL_TO_CREW_MAPPING tool_id = true <->
  In tool_id dedicated_rules \/ In tool_id registered_without_rule.
Proof.
  rewrite dict_mem_In. split.
  - simpl. intros H.
    repeat (destruct H as [<- | H];
            [first [left; solve [in_list] | right; solve [in_list]] |]).
    contradiction.
  - simpl. intros [H | H];
      repeat (destruct H as [<- | H]; [solve [in_list] |]); contradiction.
Qed.

Lemma dedicated_not_without_rule tool_id :
  In tool_id dedicated_rules -> ~ In tool_id registered_without_rule.
Proof.
  simpl. intros H.
  repeat (destruct H as [<- | H]; [intuition discriminate |]). contradiction.
Qed.

(** The rules of [rule_parameters] are the dedicated rules. *)
Lemma rule_parameters_dedicated :
  map fst rule_parameters = dedicated_rules.
Proof. reflexivity. Qed.

Lemma rendered_values_without_rule tool_id params :
  ~ In tool_id dedicated_rules ->
  rendered_values tool_id params = [PDict params].
Proof.
  intros Hno. unfold rendered_values.
  destruct (dict_get rule_parameters tool_id) eqn:Hget; [| done].
  exfalso. apply Hno. rewrite <- rule_parameters_dedicated.
  apply (dict_mem_In rule_parameters). unfold dict_mem. by rewrite Hget.
Qed.

(** *** What a rule returns, when it returns *)

Lemma first_char_not_app (c0 : ascii) (s t : string) :
  first_char_not c0 s -> first_char_not c0 (s +:+ t).
Proof. destruct s; [contradiction | exact id]. Qed.

Lemma first_char_not_if (c0 : ascii) (b : bool) (s t : string) :
  first_char_not c0 s -> first_char_not c0 t ->
  first_char_not c0 (if b then s else t).
Proof. by destruct b. Qed.

Lemma first_char_not_nonempty (c0 : ascii) (s : string) :
  first_char_not c0 s -> s <> "".
Proof. destruct s; [contradiction | discriminate]. Qed.

Ltac unfold_rule :=
  cbv beta iota zeta
      delta [convert_params_to_user_query String.eqb Ascii.eqb Bool.eqb andb].

(** One step of a rule: through the control flow down to the sentence, then
    down to the literal the sentence opens with. *)
Ltac rule_step :=
  match goal with
  | |- ok_with _ (Ok _) => apply ok_with_Ok
  | |- ok_with _ (if _ then _ else _) => apply ok_with_if
  | |- ok_with ?P (bind (B := string) (A := string) (if _ then _ else _) _) =>
      apply (ok_with_bind P P); [| intros ? ?]
  | |- ok_with _ (bind _ _) => apply ok_with_bind_any; intros ?
  | |- ok_with _ (match ?x with _ => _ end) => destruct x
  | |- first_char_not _ (if _ then _ else _) => apply first_char_not_if
  | |- first_char_not _ (_ +:+ _) => apply first_char_not_app
  | |- first_char_not _ _ => first [assumption | simpl; discriminate]
  end.

(** What a dedicated rule returns does not start with the "E" of the
    fallback sentence. *)
Lemma dedicated_rule_head tool_id params :
  In tool_id dedicated_rules ->
  ok_with (first_char_not "E") (convert_params_to_user_query tool_id params).
Proof.
  unfold dedicated_rules. simpl. intros Hin.
  repeat (destruct Hin as [<- | Hin];
          [unfold_rule; solve [repeat rule_step] |]).
  contradiction.
Qed.

Lemma fallback_sentence_head tool_id params q :
  fallback_sentence tool_id params = Ok q ->
  exists rest, q = String "E" rest.
Proof.
  unfold fallback_sentence. destruct (json_dumps (PDict params)); [| done].
  intros [= <-]. by eexists.
Qed.

(** What the synthesizer returns is never the empty string. *)
Lemma convert_nonempty tool_id params q :
  convert_params_to_user_query tool_id params = Ok q -> q <> "".
Proof.
  intros Hq.
  destruct (in_dec string_dec tool_id dedicated_rules) as [Hrule | Hnone].
  - apply (first_char_not_nonempty "E").
    exact (ok_with_elim _ _ _ (dedicated_rule_head _ params Hrule) Hq).
  - rewrite (convert_without_rule _ _ Hnone) in Hq.
    apply fallback_sentence_head in Hq as [rest ->]. discriminate.
Qed.

(** C6, at the input where the code leaves the claim: [gmail_draft] is in
    the registry and gets the fallback sentence. *)
Lemma registered_tool_gets_fallback :
  dict_mem TOOL_TO_CREW_MAPPING "gmail_draft" = true /\
  convert_params_to_user_query "gmail_draft" []
  = Ok "Execute gmail_draft with parameters: {}" /\
  fallback_sentence "gmail_draft" []
  = Ok "Execute gmail_draft with parameters: {}".
Proof. repeat split. Qed.

(** C6, amended: the fallback sentence is what the synthesizer returns
    exactly for the identifiers without a branch of their own, which are
    those outside the registry and nine of the registry; for the other
    eighteen registry identifiers a dedicated rule answers. *)
Theorem fallback_iff_no_dedicated_rule tool_id params q :
  convert_params_to_user_query tool_id params = Ok q ->
  (fallback_sentence tool_id params = Ok q <->
   dict_mem TOOL_TO_CREW_MAPPING tool_id = false \/
   In tool_id registered_without_rule).
Proof.
  intros Hq.
  destruct (in_dec string_dec tool_id dedicated_rules) as [Hrule | Hnone].
  - pose proof (ok_with_elim _ _ _ (dedicated_rule_head _ params Hrule) Hq)
      as Hhead.
    split.
    + intros [rest ->]%fallback_sentence_head. exfalso.
      exact (Hhead eq_refl).
    + intros [Hunknown | Hwithout].
      * apply dedicated_rules_registered in Hrule. congruence.
      * by apply dedicated_not_without_rule in Hrule.
  - split.
    + intros _. destruct (dict_mem TOOL_TO_CREW_MAPPING tool_id) eqn:Hmem;
        [| by left].
      apply registry_split in Hmem as [? | ?]; [contradiction | by right].
    + intros _. by rewrite <- (convert_without_rule _ params Hnone).
Qed.

Lemma fallback_iff_no_dedicated_rule_witness :
  fallback_sentence "google_calendar_create" []
  = Ok "Create calendar event: event" <->
  dict_mem TOOL_TO_CREW_MAPPING "google_calendar_create" = false \/
  In "google_calendar_create" registered_without_rule.
Proof.
  apply (fallback_iff_no_dedicated_rule "google_calendar_create" []).
  reflexivity.
Defined.

(** C7, at the input where the code leaves the claim: [gmail_reply] puts the
    ellipsis after a [reply_body] of six characters. *)
Theorem gmail_reply_short_body_ellipsis :
  convert_params_to_user_query "gmail_reply" [("reply_body", PStr "Thanks")]
  = Ok "Reply to email from  with subject '' and reply: Thanks...".
Proof. reflexivity. Qed.

(** ** What a rule can render *)

Lemma rendered_values_read tool_id keys params :
  dict_get rule_parameters tool_id = Some keys ->
  renders_within_limit tool_id params = true ->
  forall k default,
    In k keys -> ints_within_limit default = true ->
    ints_within_limit (py_get params k default) = true.
Proof.
  unfold renders_within_limit, rendered_values. intros -> Hlim k default.
  unfold py_get. induction keys as [| k' keys IH]; [contradiction |].
  simpl in Hlim. intros [-> | Hin] Hdef.
  - destruct (dict_get params k); [| done].
    simpl in Hlim. by apply andb_prop in Hlim as [? _].
  - apply IH; [| done..].
    destruct (dict_get params k'); [| done].
    simpl in Hlim. by apply andb_prop in Hlim as [_ ?].
Qed.

Lemma renders_within_limit_all tool_id params :
  ints_within_limit (PDict params) = true ->
  renders_within_limit tool_id params = true.
Proof.
  intros Hlim. unfold renders_within_limit, rendered_values.
  destruct (dict_get rule_parameters tool_id) as [keys |];
    [| by rewrite <- Hlim; simpl; rewrite andb_true_r].
  induction keys as [| k keys IH]; [done |]. simpl.
  pose proof (ints_within_limit_get params k PNone Hlim eq_refl) as Hk.
  unfold py_get in Hk. destruct (dict_get params k); [| done].
  simpl. by rewrite Hk.
Qed.

(** [start.get('dateTime', '') if isinstance(start, dict) else str(start)]
    returns, and what it returns is within the limit. *)
Lemma date_time_within_limit (v : pyval) :
  ints_within_limit v = true ->
  exists t,
    match v with
    | PDict d => Ok (py_get d "dateTime" (PStr ""))
    | _ => s <- py_str v ;;; Ok (PStr s)
    end = Ok t /\ ints_within_limit t = true.
Proof.
  intros Hv. destruct (proj2 (py_str_returns v) Hv) as [s Hs].
  destruct v; try (rewrite Hs; by eexists).
  eexists. split; [reflexivity |]. by apply ints_within_limit_get.
Qed.

Lemma ints_within_limit_take (n : nat) (l : list pyval) :
  ints_within_limit (PList l) = true ->
  ints_within_limit (PList (take n l)) = true.
Proof. exact (ints_within_limit_slice n (PList l)). Qed.

Ltac within_limit :=
  first [ assumption
        | reflexivity
        | apply ints_within_limit_take; assumption
        | match goal with
          | H : forall k default, In k _ -> _
            |- ints_within_limit (py_get _ _ _) = true =>
              apply H; [solve [in_list] | within_limit]
          end
        | apply ints_within_limit_or; within_limit ].

(** *** When a rule returns *)

Lemma join_items_domain (l : list pyval) (i : nat) :
  if forallb is_str l then returns (join_items i l)
  else ~ returns (join_items i l).
Proof.
  revert i. induction l as [| v l IH]; intros i; [apply returns_Ok |].
  destruct v; try apply not_returns_Raise.
  simpl. specialize (IH (S i)). destruct (forallb is_str l).
  - apply returns_bind; [exact IH | intros; apply returns_Ok].
  - by apply not_returns_bind_l.
Qed.

Lemma str_join_domain (sep : string) (l : list pyval) :
  if forallb is_str l then returns (str_join sep l)
  else ~ returns (str_join sep l).
Proof.
  pose proof (join_items_domain l 0) as Hj. unfold str_join.
  destruct (forallb is_str l).
  - apply returns_bind; [exact Hj | intros; apply returns_Ok].
  - by apply not_returns_bind_l.
Qed.

Ltac returns_step :=
  match goal with
  | |- returns (Ok _) => apply returns_Ok
  | |- returns (py_str _) => apply py_str_returns; within_limit
  | |- returns (json_dumps _) => apply json_encode_returns; within_limit
  | |- returns (py_len (PStr _)) => apply returns_Ok
  | |- returns (py_len (PList _)) => apply returns_Ok
  | |- returns (py_len (PDict _)) => apply returns_Ok
  | |- returns (py_slice_to _ (PStr _)) => apply returns_Ok
  | |- returns (py_slice_to _ (PList _)) => apply returns_Ok
  | |- returns (if _ then _ else _) => apply returns_if
  | |- returns (bind (py_slice_to _ _) _) =>
      apply (returns_bind_with (fun w => ints_within_limit w = true));
      [| apply ints_within_limit_slice; within_limit | intros ? ?]
  | |- returns (bind _ _) => apply returns_bind; [| intros ?]
  end.

Ltac not_returns_step :=
  match goal with
  | |- ~ returns (Raise _) => apply not_returns_Raise
  | |- ~ returns (bind (Raise _) _) => apply not_returns_Raise
  | |- ~ returns (bind (py_str _) _) => apply not_returns_bind; intros ?
  end.

Ltac unfold_accepts :=
  cbv beta iota zeta
      delta [synthesizer_accepts String.eqb Ascii.eqb Bool.eqb andb].

Ltac settle_returns :=
  cbn [py_truthy py_len py_slice_to bind negb orb sliceable String.eqb];
  first [ solve [repeat not_returns_step] | solve [repeat returns_step] ].

Lemma gmail_send_domain params :
  renders_within_limit "gmail_send" params = true ->
  if synthesizer_accepts "gmail_send" params
  then returns (convert_params_to_user_query "gmail_send" params)
  else ~ returns (convert_params_to_user_query "gmail_send" params).
Proof.
  intros Hlim.
  pose proof (rendered_values_read "gmail_send" _ params eq_refl Hlim)
    as Hread.
  assert (ints_within_limit (py_get params "body" (PStr "")) = true)
    as Hbody by within_limit.
  unfold_accepts. unfold_rule.
  destruct (py_get params "body" (PStr ""))
    as [| [] | z | bits r | [| c s] | [| v l] | [| kv d] | tn sf rf rs ats].
  all: try settle_returns.
  - cbn [py_truthy]. destruct (z =? 0)%Z; settle_returns.
  - cbn [py_truthy]. destruct (float_is_zero bits); settle_returns.
  - cbn [py_truthy py_len bind negb orb].
    destruct (Nat.ltb_spec 100 (length (kv :: d))) as [Hlt | Hge].
    + apply Nat.leb_gt in Hlt. rewrite Hlt. settle_returns.
    + apply Nat.leb_le in Hge. rewrite Hge. settle_returns.
Qed.

Lemma gmail_reply_domain params :
  renders_within_limit "gmail_reply" params = true ->
  if synthesizer_accepts "gmail_reply" params
  then returns (convert_params_to_user_query "gmail_reply" params)
  else ~ returns (convert_params_to_user_query "gmail_reply" params).
Proof.
  intros Hlim.
  pose proof (rendered_values_read "gmail_reply" _ params eq_refl Hlim)
    as Hread.
  assert (ints_within_limit (py_get params "reply_body" (PStr "")) = true)
    as Hbody by within_limit.
  unfold_accepts. unfold_rule.
  destruct (py_get params "reply_body" (PStr "")); cbv beta iota;
    settle_returns.
Qed.

Lemma google_calendar_create_domain params :
  renders_within_limit "google_calendar_create" params = true ->
  if synthesizer_accepts "google_calendar_create" params
  then returns (convert_params_to_user_query "google_calendar_create" params)
  else ~ returns (convert_params_to_user_query "google_calendar_create" params).
Proof.
  intros Hlim.
  pose proof (rendered_values_read "google_calendar_create" _ params
                eq_refl Hlim) as Hread.
  assert (ints_within_limit (py_get params "attendees" (PList [])) = true)
    as Hatt by within_limit.
  destruct (date_time_within_limit (py_get params "start" (PDict []))
              ltac:(within_limit)) as (start_time & Hstart & Hstart_lim).
  destruct (date_time_within_limit (py_get params "end" (PDict []))
              ltac:(within_limit)) as (end_time & Hend & Hend_lim).
  unfold_accepts. unfold_rule. rewrite Hstart, Hend. cbn [bind].
  destruct (py_get params "attendees" (PList []))
    as [| [] | z | bits r | s | [| v l] | d | tn sf rf rs ats].
  all: cbv beta iota.
  all: try solve [repeat returns_step].
  { cbn [forallb py_truthy]. repeat returns_step. }
  cbn [py_truthy].
  pose proof (str_join_domain ", " (v :: l)) as Hj.
  destruct (forallb is_str (v :: l)).
  - repeat returns_step. exact Hj.
  - do 4 (apply not_returns_bind; intros ?). by apply not_returns_bind_l.
Qed.

Lemma synthesizer_accepts_others tool_id params :
  tool_id <> "gmail_send" -> tool_id <> "gmail_reply" ->
  tool_id <> "google_calendar_create" ->
  synthesizer_accepts tool_id params = true.
Proof.
  intros H1 H2 H3. unfold synthesizer_accepts.
  apply String.eqb_neq in H1, H2, H3. by rewrite H1, H2, H3.
Qed.

(** Within the limit, the rules that measure, slice or join nothing
    return. *)
Lemma convert_others_return tool_id params :
  tool_id <> "gmail_send" -> tool_id <> "gmail_reply" ->
  tool_id <> "google_calendar_create" ->
  renders_within_limit tool_id params = true ->
  returns (convert_params_to_user_query tool_id params).
Proof.
  intros H1 H2 H3 Hlim.
  destruct (in_dec string_dec tool_id dedicated_rules) as [Hrule | Hnone].
  - simpl in Hrule.
    repeat (destruct Hrule as [<- | Hrule];
            [first [ congruence
                   | match type of Hlim with
                     | renders_within_limit ?t _ = true =>
                         pose proof (rendered_values_read t _ params
                                       eq_refl Hlim) as Hread
                     end;
                     unfold_rule; solve [repeat returns_step] ] |]).
    contradiction.
  - rewrite (convert_without_rule _ _ Hnone). unfold fallback_sentence.
    unfold renders_within_limit in Hlim.
    rewrite (rendered_values_without_rule _ _ Hnone) in Hlim.
    simpl in Hlim. rewrite andb_true_r in Hlim.
    repeat returns_step.
Qed.

Lemma convert_domain tool_id params :
  renders_within_limit tool_id params = true ->
  (returns (convert_params_to_user_query tool_id params) <->
   synthesizer_accepts tool_id params = true).
Proof.
  intros Hlim.
  destruct (string_dec tool_id "gmail_send") as [-> | H1].
  { pose proof (gmail_send_domain params Hlim) as H.
    destruct (synthesizer_accepts "gmail_send" params); split; try done. }
  destruct (string_dec tool_id "gmail_reply") as [-> | H2].
  { pose proof (gmail_reply_domain params Hlim) as H.
    destruct (synthesizer_accepts "gmail_reply" params); split; try done. }
  destruct (string_dec tool_id "google_calendar_create") as [-> | H3].
  { pose proof (google_calendar_create_domain params Hlim) as H.
    destruct (synthesizer_accepts "google_calendar_create" params);
      split; try done. }
  split; [intros _; by apply synthesizer_accepts_others
         | intros _; by apply convert_others_return].
Qed.

(** C1, at an input where the code leaves the claim: [gmail_reply] is in
    the registry, and a [reply_body] that is a number makes the synthesizer
    raise. *)
Lemma convert_raises_on_number_reply_body :
  dict_mem TOOL_TO_CREW_MAPPING "gmail_reply" = true /\
  convert_params_to_user_query "gmail_reply" [("reply_body", PInt 5)]
  = Raise (Exn TypeError "'int' object is not subscriptable").
Proof. split; reflexivity. Qed.

(** The digit limit makes a rule raise as well: [gmail_search] is in the
    registry, and a [query] that is an [int] of 4301 digits cannot be
    rendered. *)
Example convert_raises_on_huge_int :
  dict_mem TOOL_TO_CREW_MAPPING "gmail_search" = true /\
  convert_params_to_user_query "gmail_search" [("query", PInt huge_int)]
  = Raise (Exn ValueError
             "Exceeds the limit (4300 digits) for integer string conversion; use sys.set_int_max_str_digits() to increase the limit").
Proof. split; reflexivity. Qed.

(** C1, amended: for every tool identifier of the registry and every
    parameter mapping, the empty one included, in which the values the rule
    measures, slices or joins have a type that allows it
    ([synthesizer_accepts]) and no [int] the synthesizer can render has more
    than 4300 digits, the synthesizer returns, and what it returns is not
    the empty string. *)
Theorem convert_registered_tool_nonempty tool_id params :
  dict_mem TOOL_TO_CREW_MAPPING tool_id = true ->
  synthesizer_accepts tool_id params = true ->
  renders_within_limit tool_id params = true ->
  exists q, convert_params_to_user_query tool_id params = Ok q /\ q <> "".
Proof.
  intros _ Hok Hlim.
  destruct (proj2 (convert_domain _ _ Hlim) Hok) as [q Hq].
  exists q. split; [exact Hq | by eapply convert_nonempty].
Qed.

(** X1: as long as no [int] it can render exceeds the digit limit, the
    synthesizer returns exactly on the mappings [synthesizer_accepts]
    describes; on every other mapping it raises. *)
Theorem convert_returns_iff tool_id params :
  renders_within_limit tool_id params = true ->
  (returns (convert_params_to_user_query tool_id params) <->
   synthesizer_accepts tool_id params = true).
Proof. apply convert_domain. Qed.

(** ** The query synthesizer: what it raises *)

Lemma py_len_raises (v : pyval) :
  raise_with (fun e => is_ValueError e = false) (py_len v).
Proof. by destruct v. Qed.

Lemma py_slice_to_raises (n : nat) (v : pyval) :
  raise_with (fun e => is_ValueError e = false) (py_slice_to n v).
Proof. by destruct v. Qed.

Lemma join_items_raises (l : list pyval) (i : nat) :
  raise_with (fun e => is_ValueError e = false) (join_items i l).
Proof.
  revert i. induction l as [| v l IH]; intros i; [exact I |].
  destruct v; try reflexivity. simpl.
  apply raise_with_bind; [apply IH | intros; exact I].
Qed.

Lemma str_join_raises (sep : string) (l : list pyval) :
  raise_with (fun e => is_ValueError e = false) (str_join sep l).
Proof.
  apply raise_with_bind; [apply join_items_raises | intros; exact I].
Qed.

Ltac raise_step :=
  match goal with
  | |- raise_with _ (Ok _) => exact I
  | |- raise_with _ (py_str _) =>
      apply raise_with_returns, py_str_returns; within_limit
  | |- raise_with _ (json_dumps _) =>
      apply raise_with_returns, json_encode_returns; within_limit
  | |- raise_with _ (py_len _) => apply py_len_raises
  | |- raise_with _ (py_slice_to _ _) => apply py_slice_to_raises
  | |- raise_with _ (str_join _ _) => apply str_join_raises
  | |- raise_with _ (if _ then _ else _) => apply raise_with_if
  | |- raise_with _ (bind (py_slice_to _ _) _) =>
      apply (raise_with_bind_with _ (fun w => ints_within_limit w = true));
      [apply py_slice_to_raises
      | apply ints_within_limit_slice; within_limit | intros ? ?]
  | |- raise_with _ (bind _ _) => apply raise_with_bind; [| intros ?]
  end.

Lemma google_calendar_create_raises params :
  renders_within_limit "google_calendar_create" params = true ->
  raise_with (fun e => is_ValueError e = false)
    (convert_params_to_user_query "google_calendar_create" params).
Proof.
  intros Hlim.
  pose proof (rendered_values_read "google_calendar_create" _ params
                eq_refl Hlim) as Hread.
  assert (ints_within_limit (py_get params "attendees" (PList [])) = true)
    as Hatt by within_limit.
  destruct (date_time_within_limit (py_get params "start" (PDict []))
              ltac:(within_limit)) as (start_time & Hstart & Hstart_lim).
  destruct (date_time_within_limit (py_get params "end" (PDict []))
              ltac:(within_limit)) as (end_time & Hend & Hend_lim).
  unfold_rule. rewrite Hstart, Hend. cbn [bind].
  destruct (py_get params "attendees" (PList [])); cbv beta iota;
    repeat raise_step.
Qed.

(** Within the digit limit, nothing the synthesizer raises is a
    [ValueError]. *)
Lemma convert_raise_class tool_id params :
  renders_within_limit tool_id params = true ->
  raise_with (fun e => is_ValueError e = false)
    (convert_params_to_user_query tool_id params).
Proof.
  intros Hlim.
  destruct (in_dec string_dec tool_id dedicated_rules) as [Hrule | Hnone].
  - simpl in Hrule.
    repeat (destruct Hrule as [<- | Hrule];
            [match type of Hlim with
             | renders_within_limit "google_calendar_create" _ = true =>
                 by apply google_calendar_create_raises
             | renders_within_limit ?t _ = true =>
                 pose proof (rendered_values_read t _ params eq_refl Hlim)
                   as Hread;
                 unfold_rule; solve [repeat raise_step]
             end |]).
    contradiction.
  - apply raise_with_returns, convert_others_return; try done.
    all: intros ->; apply Hnone; in_list.
Qed.

(** X2: as long as no [int] it can render exceeds the digit limit, an
    exception of the synthesizer is never a [ValueError]: it comes from
    [len()], from slicing or from [str.join], and the handler reports it in
    its last branch. *)
Theorem convert_raises_no_ValueError tool_id params e :
  renders_within_limit tool_id params = true ->
  convert_params_to_user_query tool_id params = Raise e ->
  is_ValueError e = false.
Proof.
  intros Hlim He. pose proof (convert_raise_class tool_id params Hlim) as H.
  by rewrite He in H.
Qed.

(** ** The fallback sentence *)

Lemma json_char_plain (c : ascii) :
  json_plain_char c = true -> json_char c = String c EmptyString.
Proof.
  destruct c as [[] [] [] [] [] [] [] []]; try discriminate; reflexivity.
Qed.

Lemma json_chars_plain (s : string) :
  json_plain s = true -> json_chars s = s.
Proof.
  induction s as [| c s IH]; [done |]. simpl.
  intros [Hc Hs]%andb_prop. by rewrite (json_char_plain c Hc), IH.
Qed.

Lemma json_str_plain (s : string) :
  json_plain s = true -> json_str s = quoted s.
Proof.
  intros Hs. unfold json_str, quoted, dq. by rewrite json_chars_plain.
Qed.

Lemma mapM_In {A B : Type} (f : A -> result B) (l : list A) (ys : list B)
    (x : A) :
  mapM f l = Ok ys -> In x l -> exists y, f x = Ok y /\ In y ys.
Proof.
  revert ys. induction l as [| x' l IH]; intros ys Hl; [contradiction |].
  simpl in Hl. destruct (f x') as [y' |] eqn:Hx'; [| discriminate].
  simpl in Hl. destruct (mapM f l) as [ys' |]; [| discriminate].
  injection Hl as <-. intros [-> | Hin].
  - exists y'. split; [done | by left].
  - destruct (IH ys' eq_refl Hin) as (y & Hy & Hiny).
    exists y. split; [done | by right].
Qed.

Lemma json_container_In (opening closing item : string)
    (items : list string) :
  In item items ->
  Substring item (json_container None 0 opening closing items).
Proof.
  intros Hin. unfold json_container.
  destruct items as [| i items]; [contradiction |].
  by apply Substring_app_l, Substring_app_r, concat_In_Substring.
Qed.

(** C8, at an input where the code leaves the claim: the tool identifier is
    not in the registry, and a parameter that is an [int] of 4301 digits
    makes [json.dumps] raise. *)
Lemma convert_unknown_tool_raises :
  dict_mem TOOL_TO_CREW_MAPPING "not_a_real_tool" = false /\
  convert_params_to_user_query "not_a_real_tool" [("n", PInt huge_int)]
  = Raise (Exn ValueError
             "Exceeds the limit (4300 digits) for integer string conversion; use sys.set_int_max_str_digits() to increase the limit").
Proof. split; reflexivity. Qed.

(** C8, amended: for a tool identifier outside the registry and parameters in
    which no [int] has more than 4300 digits, the synthesizer returns the
    sentence "Execute {tool_id} with parameters: {json}", where [json] is
    what [json.dumps(params, default=str)] returns; in it a parameter whose
    value the encoder does not know stands as the JSON string of its
    [str()] (for a key and a text of plain characters: both between double
    quotes, as they are); for the sample parameters of every kind the
    sentence is the text [fallback_sample_json] spells out. *)
Theorem convert_unknown_tool_fallback tool_id params :
  dict_mem TOOL_TO_CREW_MAPPING tool_id = false ->
  ints_within_limit (PDict params) = true ->
  (exists json,
     json_dumps (PDict params) = Ok json /\
     convert_params_to_user_query tool_id params
     = Ok ("Execute " +:+ tool_id +:+ " with parameters: " +:+ json) /\
     (forall k tn sf rf response attrs,
        In (k, PObj tn sf rf response attrs) params ->
        json_plain k = true -> json_plain sf = true ->
        Substring (quoted k +:+ ": " +:+ quoted sf) json)) /\
  convert_params_to_user_query tool_id fallback_sample_params
  = Ok ("Execute " +:+ tool_id +:+ " with parameters: "
        +:+ fallback_sample_json).
Proof.
  intros Hunknown Hlim.
  assert (~ In tool_id dedicated_rules) as Hnone.
  { intros Hrule. apply dedicated_rules_registered in Hrule. congruence. }
  split; [| by rewrite (convert_without_rule _ _ Hnone)].
  destruct (proj2 (json_encode_returns None (PDict params) 0) Hlim)
    as [json Hjson].
  change (json_dumps (PDict params) = Ok json) in Hjson.
  exists json. split; [exact Hjson |]. split.
  - rewrite (convert_without_rule _ _ Hnone). unfold fallback_sentence.
    by rewrite Hjson.
  - intros k tn sf rf response attrs Hin Hk Hsf.
    unfold json_dumps in Hjson. cbn [json_encode] in Hjson.
    destruct (mapM _ params) as [items |] eqn:Hitems; [| discriminate].
    injection Hjson as <-.
    destruct (mapM_In _ _ _ _ Hitems Hin) as (item & Hitem & Hinitem).
    cbn [json_encode bind] in Hitem. injection Hitem as <-.
    rewrite (json_str_plain k Hk), (json_str_plain sf Hsf) in Hinitem.
    by apply json_container_In.
Qed.

(** ** Body truncation *)

Lemma substring_length (n : nat) (s : string) :
  n <= String.length s -> String.length (substring 0 n s) = n.
Proof.
  revert s. induction n as [| n IH]; intros s Hn; [by destruct s |].
  destruct s as [| c s]; simpl in *; [lia |]. rewrite IH; lia.
Qed.

Lemma substring_length_le (n : nat) (s : string) :
  String.length (substring 0 n s) <= n.
Proof.
  revert s. induction n as [| n IH]; intros s; [by destruct s |].
  destruct s as [| c s]; simpl; [lia |]. specialize (IH s). lia.
Qed.

Lemma substring_short (n : nat) (s : string) :
  String.length s <= n -> substring 0 n s = s.
Proof.
  revert s. induction n as [| n IH]; intros s Hn.
  - destruct s; [done | simpl in Hn; lia].
  - destruct s as [| c s]; [done |]. simpl in *. rewrite IH; [done | lia].
Qed.

(** [gmail_send] cuts a body of more than 100 characters to its first 100
    and puts the ellipsis after them. *)
Lemma gmail_send_long_body (s : string) :
  100 < String.length s ->
  convert_params_to_user_query "gmail_send" [("body", PStr s)]
  = Ok ("Send email to  with subject '' and body: "
        +:+ substring 0 100 s +:+ "...") /\
  String.length (substring 0 100 s) = 100.
Proof.
  intros Hlen. split; [| apply substring_length; lia].
  unfold_rule. cbn [py_get dict_get String.eqb Ascii.eqb Bool.eqb andb
                    py_truthy py_len py_slice_to py_str bind].
  destruct s as [| c s]; [simpl in Hlen; lia |].
  cbn [String.eqb negb bind].
  apply Nat.ltb_lt in Hlen. rewrite Hlen.
  cbn [bind py_str py_repr]. by norm_append.
Qed.

(** [gmail_send] leaves a body of at most 100 characters as it is, with no
    ellipsis. *)
Lemma gmail_send_short_body (s : string) :
  s <> "" -> String.length s <= 100 ->
  convert_params_to_user_query "gmail_send" [("body", PStr s)]
  = Ok ("Send email to  with subject '' and body: " +:+ s).
Proof.
  intros Hne Hlen.
  unfold_rule. cbn [py_get dict_get String.eqb Ascii.eqb Bool.eqb andb
                    py_truthy py_len py_slice_to py_str bind].
  destruct s as [| c s]; [done |].
  cbn [String.eqb negb bind].
  apply Nat.ltb_ge in Hlen. rewrite Hlen.
  cbn [bind py_str py_repr]. by norm_append.
Qed.

(** The 150 character body of the specification's example. *)
Lemma gmail_send_body150 :
  String.length body150 = 150 /\
  String.length body150_head = 100 /\
  convert_params_to_user_query "gmail_send" [("body", PStr body150)]
  = Ok ("Send email to  with subject '' and body: " +:+ body150_head
        +:+ "...").
Proof. repeat split. Qed.

(** [gmail_reply] puts the ellipsis after a [reply_body] of any length. *)
Lemma gmail_reply_always_ellipsis (s : string) :
  convert_params_to_user_query "gmail_reply" [("reply_body", PStr s)]
  = Ok ("Reply to email from  with subject '' and reply: "
        +:+ substring 0 100 s +:+ "...").
Proof.
  unfold_rule. cbn [py_get dict_get String.eqb Ascii.eqb Bool.eqb andb
                    py_slice_to py_str bind].
  by norm_append.
Qed.

(** The clause of a carbon-copy parameter of [gmail_send]: nothing for a
    false value, the rendered value otherwise. *)
Lemma copy_clause (query label : string) (v : pyval) (text : string) :
  py_str v = Ok text ->
  (if py_truthy v then s <- py_str v ;;; Ok (query +:+ label +:+ s)
   else Ok query)
  = Ok (query +:+ (if py_truthy v then label +:+ text else "")).
Proof.
  intros ->. destruct (py_truthy v); cbn [bind]; [done |].
  by rewrite append_nil_r.
Qed.

(** X3: [gmail_send], whatever the other parameters, as long as they can be
    rendered: a [body] text of more than 100 characters enters the sentence
    as its first 100 characters followed by the ellipsis, after the
    recipient and subject and before the CC and BCC clauses. *)
Theorem gmail_send_truncates_long_body params (s to subject cc bcc : string) :
  dict_get params "body" = Some (PStr s) ->
  100 < String.length s ->
  py_str (py_get params "to" (PStr "")) = Ok to ->
  py_str (py_get params "subject" (PStr "")) = Ok subject ->
  py_str (py_get params "cc" PNone) = Ok cc ->
  py_str (py_get params "bcc" PNone) = Ok bcc ->
  convert_params_to_user_query "gmail_send" params
  = Ok ("Send email to " +:+ to +:+ " with subject '" +:+ subject
        +:+ "'" +:+ " and body: " +:+ substring 0 100 s +:+ "..."
        +:+ (if py_truthy (py_get params "cc" PNone)
             then ", CC: " +:+ cc else "")
        +:+ (if py_truthy (py_get params "bcc" PNone)
             then ", BCC: " +:+ bcc else ""))
  /\ String.length (substring 0 100 s) = 100.
Proof.
  intros Hbody Hlen Hto Hsubject Hcc Hbcc.
  split; [| apply substring_length; lia].
  assert (py_get params "body" (PStr "") = PStr s) as Hb
    by (unfold py_get; by rewrite Hbody).
  unfold_rule. rewrite !Hb, Hto, Hsubject.
  cbn [py_truthy py_len py_slice_to py_str bind].
  destruct s as [| c s]; [simpl in Hlen; lia |].
  cbn [String.eqb negb bind].
  apply Nat.ltb_lt in Hlen. rewrite Hlen. cbn [bind].
  rewrite (copy_clause _ ", CC: " _ cc Hcc). cbn [bind].
  rewrite (copy_clause _ ", BCC: " _ bcc Hbcc). cbn [bind].
  by norm_append.
Qed.

(** X4: [gmail_send], whatever the other parameters, as long as they can be
    rendered: a [body] text of at most 100 characters enters the sentence
    whole and without ellipsis, and an empty or missing [body] leaves no
    body clause. *)
Theorem gmail_send_keeps_short_body params (s to subject cc bcc : string) :
  py_get params "body" (PStr "") = PStr s ->
  String.length s <= 100 ->
  py_str (py_get params "to" (PStr "")) = Ok to ->
  py_str (py_get params "subject" (PStr "")) = Ok subject ->
  py_str (py_get params "cc" PNone) = Ok cc ->
  py_str (py_get params "bcc" PNone) = Ok bcc ->
  convert_params_to_user_query "gmail_send" params
  = Ok ("Send email to " +:+ to +:+ " with subject '" +:+ subject
        +:+ "'" +:+ (if String.eqb s "" then "" else " and body: " +:+ s)
        +:+ (if py_truthy (py_get params "cc" PNone)
             then ", CC: " +:+ cc else "")
        +:+ (if py_truthy (py_get params "bcc" PNone)
             then ", BCC: " +:+ bcc else "")).
Proof.
  intros Hbody Hlen Hto Hsubject Hcc Hbcc.
  unfold_rule. rewrite !Hbody, Hto, Hsubject.
  cbn [py_truthy py_len py_slice_to py_str bind].
  destruct s as [| c s].
  - cbn [String.eqb negb bind].
    rewrite (copy_clause _ ", CC: " _ cc Hcc). cbn [bind].
    rewrite (copy_clause _ ", BCC: " _ bcc Hbcc). cbn [bind].
    by norm_append.
  - cbn [String.eqb negb bind].
    apply Nat.ltb_ge in Hlen. rewrite Hlen. cbn [bind].
    rewrite (copy_clause _ ", CC: " _ cc Hcc). cbn [bind].
    rewrite (copy_clause _ ", BCC: " _ bcc Hbcc). cbn [bind].
    by norm_append.
Qed.

(** X5: [gmail_reply], whatever the other parameters, as long as they can be
    rendered: a [reply_body] text, or the empty default for a missing one,
    enters the sentence cut to at most 100 characters and always followed by
    the ellipsis. *)
Theorem gmail_reply_segment params (s sender subject : string) :
  py_get params "reply_body" (PStr "") = PStr s ->
  py_str (py_get params "original_from_email" (PStr "")) = Ok sender ->
  py_str (py_get params "original_subject" (PStr "")) = Ok subject ->
  convert_params_to_user_query "gmail_reply" params
  = Ok ("Reply to email from " +:+ sender +:+ " with subject '" +:+ subject
        +:+ "' and reply: " +:+ substring 0 100 s +:+ "...")
  /\ String.length (substring 0 100 s) <= 100
  /\ (String.length s <= 100 -> substring 0 100 s = s).
Proof.
  intros Hbody Hsender Hsubject.
  split; [| split; [apply substring_length_le | apply substring_short]].
  unfold_rule. rewrite Hbody, Hsender, Hsubject.
  cbn [py_slice_to py_str bind]. by norm_append.
Qed.

(** X6: a dedicated rule reads only its own parameters: two mappings that agree
    on them get the same result, be it a sentence or an exception. *)
Theorem convert_reads_only_rule_parameters tool_id keys p1 p2 :
  In (tool_id, keys) rule_parameters ->
  (forall k, In k keys -> dict_get p1 k = dict_get p2 k) ->
  convert_params_to_user_query tool_id p1
  = convert_params_to_user_query tool_id p2.
Proof.
  unfold rule_parameters. simpl. intros Hin H.
  repeat (destruct Hin as [[= <- <-] | Hin];
          [unfold_rule; unfold py_get;
           repeat match goal with
           | |- context [dict_get p1 ?k] => rewrite (H k) by in_list
           end;
           reflexivity |]).
  contradiction.
Qed.

(** ** The result normalizer *)

Lemma parse_crewai_result_is_dict result parsed :
  parse_crewai_result result = Ok parsed -> exists d, parsed = PDict d.
Proof.
  destruct result as [| | | | | | d | tn sf rf [response |] [attrs |]];
    cbn [parse_crewai_result envelope];
    repeat match goal with
    | |- context [bind ?r _] => destruct r; cbn [bind]
    end;
    intros [= <-]; eauto.
Qed.

(** C9: [parse_crewai_result] returns a mapping as it is, and applying it
    twice gives what applying it once gives, for every input: the same
    envelope, or the same exception where the first application raises. *)
Theorem parse_crewai_result_idempotent :
  (forall d, parse_crewai_result (PDict d) = Ok (PDict d)) /\
  (forall x,
     bind (parse_crewai_result x) parse_crewai_result
     = parse_crewai_result x).
Proof.
  split; [reflexivity |].
  intros x. destruct (parse_crewai_result x) as [parsed | e] eqn:Hx; [| done].
  destruct (parse_crewai_result_is_dict _ _ Hx) as [d ->]. reflexivity.
Qed.

Lemma falsy_within_limit (v : pyval) :
  py_truthy v = false -> ints_within_limit v = true.
Proof.
  destruct v as [| | z | | | [| x l] | [| kv d] |]; try done.
  cbn [py_truthy ints_within_limit]. intros ->%negb_false_iff%Z.eqb_eq.
  reflexivity.
Qed.

(** The normalizer returns exactly where what it renders is within the
    digit limit. *)
Lemma parse_crewai_result_domain result :
  returns (parse_crewai_result result) <-> normalizer_accepts result = true.
Proof.
  destruct result as [| b | z | bits r | s | l | d
                      | tn sf rf [response |] [attrs |]];
    cbv beta iota delta [parse_crewai_result normalizer_accepts].
  all: try (split; [done | intros _; repeat returns_step]).
  all: try (pose proof (falsy_within_limit response) as Hfalse;
            destruct (py_truthy response);
            [| rewrite Hfalse by done;
               split; [done | intros _; repeat returns_step]]).
  all: rewrite <- py_str_returns.
  all: split;
    [ intros (text & -> & _)%returns_bind_inv; apply returns_Ok
    | intros [text Htext]; rewrite Htext; cbn [bind];
      repeat returns_step ].
Qed.

Lemma parse_crewai_result_raises result :
  raise_with (fun e => exn_type e = ValueError) (parse_crewai_result result).
Proof.
  destruct result as [| b | z | bits r | s | l | d
                      | tn sf rf [response |] [attrs |]];
    cbv beta iota delta [parse_crewai_result];
    repeat first [ exact I
                 | apply py_str_raises
                 | apply raise_with_if
                 | apply raise_with_bind; [| intros ?] ].
Qed.

(** X7: when the normalizer returns on a result that is no dict, it returns
    the three-field envelope with status "success" and a [str] message;
    [data] is that same text, except for an object with a [__dict__] and no
    [response], whose [data] is the [__dict__].  It returns exactly when
    what it renders holds no [int] of more than 4300 digits, and what it
    raises otherwise is the [ValueError] of the conversion. *)
Theorem parse_crewai_result_envelope result :
  (forall d, result <> PDict d) ->
  (forall parsed,
     parse_crewai_result result = Ok parsed ->
     exists data msg,
       parsed = PDict [("data", data); ("status", PStr "success");
                       ("message", PStr msg)] /\
       (data = PStr msg \/
        exists tn sf rf ats,
          result = PObj tn sf rf None (Some ats) /\
          data = PDict ats /\ msg = sf)) /\
  (returns (parse_crewai_result result) <->
   normalizer_accepts result = true) /\
  (forall e, parse_crewai_result result = Raise e -> exn_type e = ValueError).
Proof.
  intros Hnd. split; [| split].
  - intros parsed.
    destruct result as [| | | | | | d | tn sf rf [response |] [ats |]];
      cbv beta iota delta [parse_crewai_result envelope py_str]; cbn [bind];
      repeat match goal with
      | |- context [bind ?r _] => destruct r; cbn [bind]
      end;
      intros [= <-];
      try (by eexists _, _; split; [reflexivity | left]).
    + by destruct (Hnd d).
    + eexists _, _. split; [reflexivity |]. right. by eexists _, _, _, _.
  - apply parse_crewai_result_domain.
  - intros e He. pose proof (parse_crewai_result_raises result) as H.
    by rewrite He in H.
Qed.

(** ** The flow cache *)

Lemma constructions_app (tr1 tr2 : list event) :
  constructions (tr1 ++ tr2) = constructions tr1 ++ constructions tr2.
Proof. apply omap_app. Qed.

Lemma kickoffs_app (tr1 tr2 : list event) :
  kickoffs (tr1 ++ tr2) = kickoffs tr1 ++ kickoffs tr2.
Proof. apply omap_app. Qed.

Lemma getenvs_app (tr1 tr2 : list event) :
  getenvs (tr1 ++ tr2) = getenvs tr1 ++ getenvs tr2.
Proof. apply omap_app. Qed.

Lemma created_app (tr1 tr2 : list event) :
  created (tr1 ++ tr2) = created tr1 + created tr2.
Proof.
  unfold created. by rewrite constructions_app, filter_app, length_app.
Qed.


Lemma dict_get_In_values {V : Type} (d : list (string * V)) (k : string) (v : V) :
  dict_get d k = Some v -> In v (map snd d).
Proof.
  induction d as [| [k' v'] d IH]; [discriminate |]. simpl.
  destruct (String.eqb k k'); [intros [= ->]; by left | right; auto].
Qed.


Lemma available_tools_rendered :
  py_str (PList (map PStr (dict_keys TOOL_TO_CREW_MAPPING)))
  = Ok available_tools_text.
Proof. reflexivity. Qed.


Section ServerProperties.

Variable init : nat -> string -> string -> option exn.
Variable kickoff : nat -> flow -> kickoff_inputs -> result pyval.

(** A filled cache answers, and nothing else happens. *)
Lemma get_flow_cached st f :
  _flow_cache st !! "google_suite" = Some f ->
  get_google_suite_flow init st = (Ok f, st).
Proof. intros H. unfold get_google_suite_flow. by rewrite !H. Qed.

(** The three ways a call of [get_google_suite_flow] can go. *)
Lemma get_flow_cases st :
  (exists f, _flow_cache st !! "google_suite" = Some f /\
             get_google_suite_flow init st = (Ok f, st)) \/
  (_flow_cache st !! "google_suite" = None /\
   exists e evs,
     get_google_suite_flow init st
     = (Raise e, {| _flow_cache := _flow_cache st; environ := environ st;
                    trace := trace st ++ evs |}) /\
     is_ValueError e = true /\ kickoffs evs = [] /\ created evs = 0) \/
  (_flow_cache st !! "google_suite" = None /\
   exists f evs,
     get_google_suite_flow init st
     = (Ok f, {| _flow_cache := <["google_suite" := f]> (_flow_cache st);
                 environ := environ st;
                 trace := trace st ++ evs |}) /\
     kickoffs evs = [] /\ created evs = 1).
Proof.
  destruct (_flow_cache st !! "google_suite") as [f |] eqn:Hcache.
  { left. exists f. split; [done | by apply get_flow_cached]. }
  right. unfold get_google_suite_flow, os_getenv. rewrite Hcache.
  destruct (environ st !! "OPENAI_API_KEY") as [api_key |];
    [destruct (String.eqb api_key "") |].
  - left. split; [done |]. by eexists _, [EvGetenv "OPENAI_API_KEY"].
  - cbn [trace record].
    destruct (init _ _ api_key) as [e |].
    + left. split; [done |].
      eexists _, [EvGetenv "OPENAI_API_KEY";
                  EvConstruct "Google Suite Flow" api_key (Some e)].
      unfold record. cbn [trace _flow_cache environ].
      rewrite <- app_assoc. done.
    + right. split; [done |].
      eexists _, [EvGetenv "OPENAI_API_KEY";
                  EvConstruct "Google Suite Flow" api_key None].
      unfold set_flow_cache, record. cbn [trace _flow_cache environ].
      rewrite lookup_insert_eq, <- app_assoc. done.
  - left. split; [done |]. by eexists _, [EvGetenv "OPENAI_API_KEY"].
Qed.

(** A call that returned a flow left it in the cache. *)
Lemma get_flow_Ok_cached st f st1 :
  get_google_suite_flow init st = (Ok f, st1) ->
  _flow_cache st1 !! "google_suite" = Some f.
Proof.
  intros Hget.
  destruct (get_flow_cases st)
    as [(f' & Hc & H) | [(_ & e & evs & H & _) | (_ & f' & evs & H & _)]];
    rewrite H in Hget; inversion Hget; subst; cbn; [done |].
  apply lookup_insert_eq.
Qed.

Lemma get_flow_kickoffs st r st1 :
  get_google_suite_flow init st = (r, st1) ->
  kickoffs (trace st1) = kickoffs (trace st).
Proof.
  intros Hget.
  destruct (get_flow_cases st)
    as [(f & _ & H) | [(_ & e & evs & H & _ & Hk & _)
                      | (_ & f & evs & H & Hk & _)]];
    rewrite H in Hget; inversion Hget; subst; [done | |];
    cbn [trace]; by rewrite kickoffs_app, Hk, app_nil_r.
Qed.

Lemma get_flow_raises st e st1 :
  get_google_suite_flow init st = (Raise e, st1) -> is_ValueError e = true.
Proof.
  intros Hget.
  destruct (get_flow_cases st)
    as [(f & _ & H) | [(_ & e' & evs & H & He & _)
                      | (_ & f & evs & H & _)]];
    rewrite H in Hget; inversion Hget; by subst.
Qed.

(** ** The execute handler *)

(** The first log lines: the parameters are written exactly when no [int]
    in them exceeds the digit limit. *)
Lemma params_logged request :
  ints_within_limit (PDict (params request)) = true ->
  exists text, json_dumps_indent2 (PDict (params request)) = Ok text.
Proof. intros H. by apply json_encode_returns. Qed.

Lemma params_not_logged request :
  ints_within_limit (PDict (params request)) = false ->
  exists e, json_dumps_indent2 (PDict (params request)) = Raise e /\
            is_ValueError e = true.
Proof.
  intros H.
  pose proof (json_encode_returns (Some 2) (PDict (params request)) 0) as Hr.
  pose proof (json_encode_raises (Some 2) (PDict (params request)) 0) as He.
  unfold json_dumps_indent2.
  destruct (json_encode (Some 2) 0 (PDict (params request))) as [text | e].
  - rewrite H in Hr. discriminate (proj1 Hr (returns_Ok text)).
  - exists e. split; [done |]. unfold is_ValueError. simpl in He.
    by rewrite He.
Qed.

(** Parameters that cannot be logged end the request at once, with the
    text of the conversion error behind "Configuration error: ". *)
Lemma execute_not_logged amb request st :
  ints_within_limit (PDict (params request)) = false ->
  exists text,
    execute_google_suite_tool init kickoff amb request st
    = (configuration_error text, st).
Proof.
  intros [e [He Hv]]%params_not_logged. exists (exn_str e).
  unfold execute_google_suite_tool, execute_try. by rewrite He, Hv.
Qed.

Lemma execute_unknown amb request st :
  ints_within_limit (PDict (params request)) = true ->
  dict_mem TOOL_TO_CREW_MAPPING (toolId request) = false ->
  execute_google_suite_tool init kickoff amb request st
  = ({| success := false; output := None;
        error := Some ("Unknown tool ID: " +:+ toolId request
                       +:+ ". Available tools: " +:+ available_tools_text);
        metadata := Some [("available_tools",
                           PList (map PStr registry_identifiers))] |},
     st).
Proof.
  intros [text Htext]%params_logged H.
  unfold execute_google_suite_tool, execute_try.
  by rewrite Htext, H, available_tools_rendered.
Qed.

Lemma execute_query_raises amb request st e :
  ints_within_limit (PDict (params request)) = true ->
  dict_mem TOOL_TO_CREW_MAPPING (toolId request) = true ->
  resolve_user_query request = Raise e ->
  execute_google_suite_tool init kickoff amb request st
  = (if is_ValueError e then configuration_error (exn_str e)
     else execution_error amb (toolId request) (exn_str e), st).
Proof.
  intros [text Htext]%params_logged Hreg Hq.
  unfold execute_google_suite_tool, execute_try.
  rewrite Htext, Hreg, Hq. cbn. by destruct (is_ValueError e).
Qed.

Lemma execute_flow_raises amb request st q e st1 :
  ints_within_limit (PDict (params request)) = true ->
  dict_mem TOOL_TO_CREW_MAPPING (toolId request) = true ->
  resolve_user_query request = Ok q ->
  get_google_suite_flow init st = (Raise e, st1) ->
  execute_google_suite_tool init kickoff amb request st
  = (configuration_error (exn_str e), st1).
Proof.
  intros [text Htext]%params_logged Hreg Hq Hget.
  pose proof (get_flow_raises _ _ _ Hget) as He.
  unfold execute_google_suite_tool, execute_try.
  rewrite Htext, Hreg, Hq, Hget. cbn. by rewrite He.
Qed.

(** With the parameters logged, a query and a flow at hand, the handler
    calls [kickoff], once, whatever [kickoff], the normalizer and the last
    log line then do. *)
Lemma execute_flow_ok amb request st crew q f st1 :
  ints_within_limit (PDict (params request)) = true ->
  dict_get TOOL_TO_CREW_MAPPING (toolId request) = Some crew ->
  resolve_user_query request = Ok q ->
  get_google_suite_flow init st = (Ok f, st1) ->
  snd (execute_google_suite_tool init kickoff amb request st)
  = record (EvKickoff f {| user_query := q; crew_name := crew;
                           flow_name := crew |}) st1.
Proof.
  intros [text Htext]%params_logged Hcrew Hq Hget.
  unfold execute_google_suite_tool, execute_try.
  unfold dict_mem. rewrite Htext, Hcrew, Hq, Hget. cbn [negb].
  destruct (kickoff _ f _) as [result | e]; [| by destruct (is_ValueError e)].
  destruct (parse_crewai_result result) as [parsed | e];
    [| by destruct (is_ValueError e)].
  destruct (bind (py_slice_to 200 _) _) as [? | e];
    [done | by destruct (is_ValueError e)].
Qed.

(** What a request does to the state: nothing; a call of
    [get_google_suite_flow]; or that call, returning a flow, and one
    invocation of that flow with the query and the registry's flow name. *)
Lemma execute_effect amb request st :
  let st' := snd (execute_google_suite_tool init kickoff amb request st) in
  st' = st \/
  st' = snd (get_google_suite_flow init st) \/
  exists crew q f st1,
    dict_get TOOL_TO_CREW_MAPPING (toolId request) = Some crew /\
    get_google_suite_flow init st = (Ok f, st1) /\
    st' = record (EvKickoff f {| user_query := q; crew_name := crew;
                                 flow_name := crew |}) st1.
Proof.
  cbv zeta.
  destruct (ints_within_limit (PDict (params request))) eqn:Hlog;
    [| left; destruct (execute_not_logged amb request st Hlog) as [text ->];
       done].
  destruct (dict_mem TOOL_TO_CREW_MAPPING (toolId request)) eqn:Hreg;
    [| left; by rewrite execute_unknown].
  destruct (resolve_user_query request) as [q | e] eqn:Hq;
    [| left; by rewrite (execute_query_raises amb request st e)].
  right.
  destruct (get_google_suite_flow init st) as [[f | e] st1] eqn:Hget.
  - right. unfold dict_mem in Hreg.
    destruct (dict_get TOOL_TO_CREW_MAPPING (toolId request)) as [crew |] eqn:Hc;
      [| discriminate].
    exists crew, q, f, st1. split_and!; [done | done |].
    by eapply execute_flow_ok.
  - left. by rewrite (execute_flow_raises amb request st q e st1).
Qed.







(** ** The cache over the life of the process *)

(** With a filled cache, a call or a request leaves the cache alone, builds
    no flow and reads no environment. *)
Lemma step_cached st c f :
  _flow_cache st !! "google_suite" = Some f ->
  _flow_cache (step init kickoff st c) = _flow_cache st /\
  constructions (trace (step init kickoff st c)) = constructions (trace st) /\
  getenvs (trace (step init kickoff st c)) = getenvs (trace st).
Proof.
  intros Hf. pose proof (get_flow_cached st f Hf) as Hget.
  destruct c as [now | | amb request |]; cbn [step]; [done | done | |].
  - destruct (execute_effect amb request st)
      as [-> | [-> | (crew & q & f' & st1 & _ & Hget' & ->)]];
      rewrite ?Hget; cbn [snd record trace _flow_cache]; [done | done |].
    rewrite Hget in Hget'. injection Hget' as _ <-.
    cbn [record trace _flow_cache].
    by rewrite constructions_app, getenvs_app, !app_nil_r.
  - by rewrite Hget.
Qed.

Lemma run_cached cs st f :
  _flow_cache st !! "google_suite" = Some f ->
  _flow_cache (run init kickoff cs st) = _flow_cache st /\
  constructions (trace (run init kickoff cs st)) = constructions (trace st) /\
  getenvs (trace (run init kickoff cs st)) = getenvs (trace st).
Proof.
  revert st. induction cs as [| c cs IH]; intros st Hf; [done |].
  cbn [run fold_left].
  destruct (step_cached st c f Hf) as (Hc & Hk & Hg).
  destruct (IH (step init kickoff st c)) as (Hc' & Hk' & Hg').
  { by rewrite Hc. }
  unfold run in *. by rewrite Hc', Hk', Hg'.
Qed.

Lemma get_flow_counts st :
  cache_counts st -> cache_counts (snd (get_google_suite_flow init st)).
Proof.
  unfold cache_counts. intros Hinv.
  destruct (get_flow_cases st)
    as [(f & Hc & ->) | [(Hc & e & evs & -> & _ & _ & Hn)
                        | (Hc & f & evs & -> & _ & Hn)]];
    cbn [snd _flow_cache trace]; [done | |].
  - rewrite Hc in *. rewrite created_app. lia.
  - rewrite Hc in Hinv. rewrite lookup_insert_eq, created_app. lia.
Qed.

Lemma step_counts st c :
  cache_counts st -> cache_counts (step init kickoff st c).
Proof.
  intros Hinv. destruct c as [now | | amb request |]; cbn [step];
    [done | done | | by apply get_flow_counts].
  destruct (execute_effect amb request st)
    as [-> | [-> | (crew & q & f & st1 & _ & Hget & ->)]];
    [done | by apply get_flow_counts |].
  apply get_flow_counts in Hinv. rewrite Hget in Hinv. cbn [snd] in Hinv.
  unfold cache_counts in *.
  cbn [record _flow_cache trace]. rewrite created_app.
  change (created [EvKickoff f _]) with 0. by rewrite Nat.add_0_r.
Qed.

Lemma run_counts cs st :
  cache_counts st -> cache_counts (run init kickoff cs st).
Proof.
  revert st. induction cs as [| c cs IH]; intros st Hinv; [done |].
  cbn [run fold_left]. apply IH. by apply step_counts.
Qed.

(** At most one flow is ever built. *)
Lemma created_at_most_once env cs :
  created (trace (run init kickoff cs (process_start env))) <= 1.
Proof.
  pose proof (run_counts cs (process_start env) eq_refl) as Hinv.
  unfold cache_counts in Hinv.
  destruct (_flow_cache _ !! "google_suite"); lia.
Qed.

(** C5: in a process run from its start, once a call of
    [get_google_suite_flow] has returned a flow, then after any further
    calls and requests exactly one flow has been built, the cache still
    holds that flow, a call returns it and changes nothing, and no
    constructor call and no environment read has been added. *)
Theorem flow_created_once env cs f st1 cs' :
  get_google_suite_flow init (run init kickoff cs (process_start env))
  = (Ok f, st1) ->
  let st2 := run init kickoff cs' st1 in
  created (trace st2) = 1 /\
  _flow_cache st2 !! "google_suite" = Some f /\
  get_google_suite_flow init st2 = (Ok f, st2) /\
  constructions (trace st2) = constructions (trace st1) /\
  getenvs (trace st2) = getenvs (trace st1).
Proof.
  intros Hget. cbv zeta.
  pose proof (get_flow_Ok_cached _ _ _ Hget) as Hf.
  destruct (run_cached cs' st1 f Hf) as (Hc & Hk & Hg).
  assert (_flow_cache (run init kickoff cs' st1) !! "google_suite" = Some f)
    as Hf2 by (by rewrite Hc).
  split_and!; [| done | by apply get_flow_cached | done | done].
  assert (cache_counts st1) as Hinv1.
  { replace st1
      with (snd (get_google_suite_flow init
                   (run init kickoff cs (process_start env))))
      by (by rewrite Hget).
    apply get_flow_counts, run_counts. reflexivity. }
  pose proof (run_counts cs' st1 Hinv1) as Hinv2.
  unfold cache_counts in Hinv2. by rewrite Hf2 in Hinv2.
Qed.

(** ** The flow cache: each way a call can go *)

Lemma get_flow_empty_key st :
  _flow_cache st !! "google_suite" = None ->
  environ st !! "OPENAI_API_KEY" = Some "" ->
  get_google_suite_flow init st
  = (Raise (Exn ValueError "OPENAI_API_KEY not set in environment variables"),
     record (EvGetenv "OPENAI_API_KEY") st).
Proof.
  intros Hcache Henv.
  unfold get_google_suite_flow, os_getenv. by rewrite Hcache, Henv.
Qed.

(** X8: an API key that is set to the empty string counts as not set: with
    an empty cache the call raises the [ValueError] of a missing key, the
    constructor is not called and the cache stays empty. *)
Theorem empty_api_key_is_missing st :
  _flow_cache st !! "google_suite" = None ->
  environ st !! "OPENAI_API_KEY" = Some "" ->
  get_google_suite_flow init st
  = (Raise (Exn ValueError "OPENAI_API_KEY not set in environment variables"),
     record (EvGetenv "OPENAI_API_KEY") st) /\
  constructions (trace (snd (get_google_suite_flow init st)))
  = constructions (trace st) /\
  _flow_cache (snd (get_google_suite_flow init st)) = _flow_cache st.
Proof.
  intros Hcache Henv. rewrite (get_flow_empty_key st Hcache Henv).
  split_and!; [done | | done].
  cbn [snd record trace]. by rewrite constructions_app, app_nil_r.
Qed.

(** A constructor that raises: the call raises [ValueError] with the
    constructor's message behind "Flow initialization failed: ", whatever
    the class of the constructor's exception, and the cache stays as it
    was. *)
Lemma get_flow_constructor_raises st k e :
  _flow_cache st !! "google_suite" = None ->
  environ st !! "OPENAI_API_KEY" = Some k -> k <> "" ->
  init (length (constructions (trace st))) "Google Suite Flow" k = Some e ->
  get_google_suite_flow init st
  = (Raise (Exn ValueError ("Flow initialization failed: " +:+ exn_str e)),
     record (EvConstruct "Google Suite Flow" k (Some e))
       (record (EvGetenv "OPENAI_API_KEY") st)).
Proof.
  intros Hcache Henv Hk Hinit. apply String.eqb_neq in Hk.
  unfold get_google_suite_flow, os_getenv. rewrite Hcache, Henv, Hk.
  cbn [trace record].
  assert (constructions (trace st ++ [EvGetenv "OPENAI_API_KEY"])
          = constructions (trace st)) as ->
    by (by rewrite constructions_app, app_nil_r).
  by rewrite Hinit.
Qed.

(** A constructor that returns: the call returns a flow built under the
    fixed name with the key of the environment, and leaves it in the
    cache. *)
Lemma get_flow_constructor_returns st k :
  _flow_cache st !! "google_suite" = None ->
  environ st !! "OPENAI_API_KEY" = Some k -> k <> "" ->
  init (length (constructions (trace st))) "Google Suite Flow" k = None ->
  let f := {| flow_id := length (constructions (trace st));
              init_name := "Google Suite Flow"; init_api_key := k |} in
  get_google_suite_flow init st
  = (Ok f,
     set_flow_cache "google_suite" f
       (record (EvConstruct "Google Suite Flow" k None)
          (record (EvGetenv "OPENAI_API_KEY") st))).
Proof.
  intros Hcache Henv Hk Hinit. apply String.eqb_neq in Hk. cbv zeta.
  unfold get_google_suite_flow, os_getenv. rewrite Hcache, Henv, Hk.
  cbn [trace record].
  assert (constructions (trace st ++ [EvGetenv "OPENAI_API_KEY"])
          = constructions (trace st)) as ->
    by (by rewrite constructions_app, app_nil_r).
  rewrite Hinit. unfold set_flow_cache. cbn [_flow_cache].
  by rewrite lookup_insert_eq.
Qed.

(** X9: a failed construction is not remembered: the next call reads the
    environment and calls the constructor again, and returns the flow when
    that call of the constructor returns. *)
Theorem failed_construction_is_retried st k e :
  _flow_cache st !! "google_suite" = None ->
  environ st !! "OPENAI_API_KEY" = Some k -> k <> "" ->
  init (length (constructions (trace st))) "Google Suite Flow" k = Some e ->
  init (S (length (constructions (trace st)))) "Google Suite Flow" k = None ->
  exists st1 st2,
    get_google_suite_flow init st
    = (Raise (Exn ValueError ("Flow initialization failed: " +:+ exn_str e)),
       st1) /\
    _flow_cache st1 = _flow_cache st /\
    get_google_suite_flow init st1
    = (Ok {| flow_id := S (length (constructions (trace st)));
             init_name := "Google Suite Flow"; init_api_key := k |}, st2) /\
    constructions (trace st2) = constructions (trace st) ++ [Some e; None].
Proof.
  intros Hcache Henv Hk Hfail Hok.
  pose proof (get_flow_constructor_raises st k e Hcache Henv Hk Hfail) as H1.
  set (st1 := record (EvConstruct "Google Suite Flow" k (Some e))
                (record (EvGetenv "OPENAI_API_KEY") st)) in *.
  assert (constructions (trace st1) = constructions (trace st) ++ [Some e])
    as Hc1.
  { subst st1. cbn [trace record].
    rewrite !constructions_app. cbn. by rewrite app_nil_r. }
  assert (length (constructions (trace st1))
          = S (length (constructions (trace st)))) as Hn1.
  { rewrite Hc1, length_app. cbn. lia. }
  pose proof (get_flow_constructor_returns st1 k) as H2.
  rewrite Hn1 in H2. specialize (H2 Hcache Henv Hk Hok). cbv zeta in H2.
  eexists _, _. split_and!; [exact H1 | done | exact H2 |].
  unfold set_flow_cache. cbn [trace record].
  rewrite !constructions_app. fold st1. rewrite Hc1. cbn.
  by rewrite app_nil_r, <- app_assoc.
Qed.

(** What a call does to the state: nothing with a filled cache; else one
    environment read, at most one constructor call, and a cache that is
    filled exactly when the call returns. *)
Lemma get_flow_effect st :
  exists r st1 evs,
    get_google_suite_flow init st = (r, st1) /\
    environ st1 = environ st /\
    trace st1 = trace st ++ evs /\
    length (getenvs evs) <= 1 /\ length (constructions evs) <= 1 /\
    kickoffs evs = [] /\
    ((_flow_cache st1 = _flow_cache st /\
      (forall f, r = Ok f -> st1 = st)) \/
     (_flow_cache st !! "google_suite" = None /\
      exists f, r = Ok f /\
                _flow_cache st1 = <["google_suite" := f]> (_flow_cache st) /\
                init_name f = "Google Suite Flow" /\
                environ st !! "OPENAI_API_KEY" = Some (init_api_key f) /\
                init_api_key f <> "")).
Proof.
  destruct (_flow_cache st !! "google_suite") as [f |] eqn:Hcache.
  { exists (Ok f), st, []. rewrite app_nil_r.
    split_and!; [by apply get_flow_cached | done | done | cbn; lia
                | cbn; lia | done | by left]. }
  destruct (environ st !! "OPENAI_API_KEY") as [k |] eqn:Henv.
  - destruct (string_dec k "") as [-> | Hk].
    + eexists _, _, [EvGetenv "OPENAI_API_KEY"].
      split_and!; [by apply get_flow_empty_key | done | done
                  | cbn; lia | cbn; lia | done |].
      left. split; [done | discriminate].
    + destruct (init (length (constructions (trace st)))
                  "Google Suite Flow" k) as [e |] eqn:Hinit.
      * eexists _, _, [EvGetenv "OPENAI_API_KEY";
                       EvConstruct "Google Suite Flow" k (Some e)].
        split_and!; [by apply get_flow_constructor_raises | done
                    | cbn; by rewrite <- app_assoc
                    | cbn; lia | cbn; lia | done |].
        left. split; [done | discriminate].
      * eexists _, _, [EvGetenv "OPENAI_API_KEY";
                       EvConstruct "Google Suite Flow" k None].
        split_and!; [by apply get_flow_constructor_returns | done
                    | cbn; by rewrite <- app_assoc
                    | cbn; lia | cbn; lia | done |].
        right. split; [done |]. eexists. by split_and!.
  - exists (Raise (Exn ValueError
                     "OPENAI_API_KEY not set in environment variables")),
      (record (EvGetenv "OPENAI_API_KEY") st), [EvGetenv "OPENAI_API_KEY"].
    split_and!; [| done | done | cbn; lia | cbn; lia | done |].
    + unfold get_google_suite_flow, os_getenv. by rewrite Hcache, Henv.
    + left. split; [done | discriminate].
Qed.

(** ** The execute handler: each way a request can go *)

Lemma resolve_raises request e :
  ints_within_limit (PDict (params request)) = true ->
  resolve_user_query request = Raise e -> is_ValueError e = false.
Proof.
  unfold resolve_user_query. intros Hlog H.
  assert (convert_params_to_user_query (toolId request) (params request)
          = Raise e) as Hc.
  { destruct (userQuery request) as [q |]; [| exact H].
    destruct (negb (String.eqb q "")); [discriminate | exact H]. }
  pose proof (convert_raise_class (toolId request) (params request)
                (renders_within_limit_all _ _ Hlog)) as Hr.
  by rewrite Hc in Hr.
Qed.

(** X10: a synthesis that raises, on parameters that were logged, ends the
    request as a runtime error, never as a configuration error: the
    envelope has "Error executing tool", the tool identifier and the
    exception text, the traceback is in the metadata, and the state is
    untouched (no environment read, no flow built or invoked). *)
Theorem synthesis_failure_reported amb request st e :
  dict_mem TOOL_TO_CREW_MAPPING (toolId request) = true ->
  ints_within_limit (PDict (params request)) = true ->
  resolve_user_query request = Raise e ->
  execute_google_suite_tool init kickoff amb request st
  = ({| success := false; output := None;
        error := Some ("Error executing tool " +:+ toolId request +:+ ": "
                       +:+ exn_str e);
        metadata := Some [("traceback", PStr (format_exc amb))] |}, st).
Proof.
  intros Hreg Hlog Hq.
  rewrite (execute_query_raises amb request st e Hlog Hreg Hq).
  by rewrite (resolve_raises _ _ Hlog Hq).
Qed.






(** X14: every envelope of the handler has an output and no error when
    [success] is true, and an error and no output when it is false. *)
Theorem execute_response_shape amb request st :
  let response := fst (execute_google_suite_tool init kickoff amb request st) in
  (success response = true /\ is_Some (output response)
   /\ error response = None) \/
  (success response = false /\ output response = None
   /\ is_Some (error response)).
Proof.
  cbv zeta. unfold execute_google_suite_tool, execute_try.
  destruct (json_dumps_indent2 _) as [text | e];
    [| destruct (is_ValueError e); right; cbn; eauto].
  destruct (negb (dict_mem TOOL_TO_CREW_MAPPING (toolId request))).
  { destruct (py_str _) as [? | e];
      [| destruct (is_ValueError e)]; right; cbn; eauto. }
  destruct (resolve_user_query request) as [q | e];
    [| destruct (is_ValueError e); right; cbn; eauto].
  destruct (get_google_suite_flow init st) as [[f | e] st1];
    [| destruct (is_ValueError e); right; cbn; eauto].
  destruct (kickoff _ f _) as [result | e];
    [| destruct (is_ValueError e); right; cbn; eauto].
  destruct (parse_crewai_result result) as [parsed | e];
    [| destruct (is_ValueError e); right; cbn; eauto].
  destruct (bind (py_slice_to 200 _) _) as [w | e];
    [left; cbn; eauto | destruct (is_ValueError e); right; cbn; eauto].
Qed.

Lemma resolve_caller_query tool_id ps q :
  q <> "" ->
  resolve_user_query {| toolId := tool_id; params := ps; userQuery := Some q |}
  = Ok q.
Proof.
  intros Hq. apply String.eqb_neq in Hq.
  unfold resolve_user_query. cbn [userQuery]. by rewrite Hq.
Qed.

(** X15: with a query of the caller the parameters are only logged: two
    requests for the same tool and with the same non-empty [userQuery],
    whose parameters can both be logged (no [int] of more than 4300
    digits), get the same envelope and leave the same state, whatever the
    parameters are otherwise. *)
Theorem caller_query_ignores_params amb tool_id ps ps' q st :
  q <> "" ->
  ints_within_limit (PDict ps) = true ->
  ints_within_limit (PDict ps') = true ->
  execute_google_suite_tool init kickoff amb
    {| toolId := tool_id; params := ps; userQuery := Some q |} st
  = execute_google_suite_tool init kickoff amb
      {| toolId := tool_id; params := ps'; userQuery := Some q |} st.
Proof.
  intros Hq Hps Hps'.
  destruct (params_logged {| toolId := tool_id; params := ps;
                             userQuery := Some q |} Hps) as [text Htext].
  destruct (params_logged {| toolId := tool_id; params := ps';
                             userQuery := Some q |} Hps') as [text' Htext'].
  cbn [params] in Htext, Htext'.
  unfold execute_google_suite_tool, execute_try.
  cbn [toolId params]. by rewrite Htext, Htext', !resolve_caller_query.
Qed.

(** ** One request, and the life of the process *)

(** X16: one request reads the environment at most once, calls the constructor
    at most once and invokes the flow at most once; it does not change the
    environment. *)
Theorem execute_request_bounds amb request st :
  let st' := snd (execute_google_suite_tool init kickoff amb request st) in
  environ st' = environ st /\
  exists evs,
    trace st' = trace st ++ evs /\
    length (getenvs evs) <= 1 /\
    length (constructions evs) <= 1 /\
    length (kickoffs evs) <= 1.
Proof.
  cbv zeta.
  destruct (get_flow_effect st)
    as (r & st1 & evs & Hget & Henv & Htr & Hg & Hc & Hk & _).
  destruct (execute_effect amb request st)
    as [-> | [-> | (crew & q & f & st1' & _ & Hget' & ->)]].
  - split; [done |]. exists []. rewrite app_nil_r. cbn. split_and!; [done | lia ..].
  - rewrite Hget. cbn [snd]. split; [done |]. exists evs.
    rewrite Hk. cbn. split_and!; [done | lia ..].
  - rewrite Hget in Hget'. injection Hget' as _ <-.
    cbn [record environ trace]. split; [done |].
    eexists (evs ++ [_]). rewrite Htr, <- app_assoc.
    split; [done |].
    rewrite getenvs_app, constructions_app, kickoffs_app, !length_app, Hk.
    cbn. lia.
Qed.

Lemma get_flow_from_env env st :
  cache_from_env env st ->
  cache_from_env env (snd (get_google_suite_flow init st)).
Proof.
  intros [Henv Hcache].
  destruct (get_flow_effect st)
    as (r & st1 & evs & -> & Henv1 & _ & _ & _ & _ & Hcase).
  cbn [snd]. split; [congruence |].
  destruct Hcase as [[-> _] | (Hnone & f & _ & -> & Hname & Hkey & Hne)];
    [done |].
  right. exists f. rewrite Henv in Hkey.
  destruct Hcache as [-> | (f0 & Hf0 & _)].
  - by rewrite insert_empty.
  - rewrite Hf0, lookup_singleton_eq in Hnone. discriminate.
Qed.

Lemma step_from_env env st c :
  cache_from_env env st -> cache_from_env env (step init kickoff st c).
Proof.
  intros Hinv. destruct c as [now | | amb request |]; cbn [step];
    [done | done | | by apply get_flow_from_env].
  destruct (execute_effect amb request st)
    as [-> | [-> | (crew & q & f & st1 & _ & Hget & ->)]];
    [done | by apply get_flow_from_env |].
  apply get_flow_from_env in Hinv. by rewrite Hget in Hinv.
Qed.

(** X17: over the life of the process the environment is never changed, and the
    cache is empty or holds, under its one key, a flow built under the
    fixed name with the non-empty API key of the environment. *)
Theorem cache_holds_flow_of_env env cs :
  cache_from_env env (run init kickoff cs (process_start env)).
Proof.
  assert (forall st, cache_from_env env st ->
                     cache_from_env env (run init kickoff cs st)) as H.
  { induction cs as [| c cs IH]; intros st Hinv; [done |].
    cbn [run fold_left]. apply IH. by apply step_from_env. }
  apply H. split; [done | by left].
Qed.

Lemma get_flow_kickoffs_use_cache st :
  kickoffs_use_cache st ->
  kickoffs_use_cache (snd (get_google_suite_flow init st)).
Proof.
  intros Hinv f inputs Hin.
  destruct (get_google_suite_flow init st) as [r st1] eqn:Hget.
  cbn [snd] in *.
  rewrite (get_flow_kickoffs st r st1 Hget) in Hin.
  destruct (Hinv f inputs Hin) as (Hf & Hcf & Hc).
  rewrite (get_flow_cached st f Hf) in Hget. by injection Hget as _ <-.
Qed.

Lemma step_kickoffs_use_cache st c :
  kickoffs_use_cache st -> kickoffs_use_cache (step init kickoff st c).
Proof.
  intros Hinv. destruct c as [now | | amb request |]; cbn [step];
    [done | done | | by apply get_flow_kickoffs_use_cache].
  destruct (execute_effect amb request st)
    as [-> | [-> | (crew & q & f & st1 & Hcrew & Hget & ->)]];
    [done | by apply get_flow_kickoffs_use_cache |].
  pose proof (get_flow_kickoffs_use_cache st Hinv) as Hinv1.
  rewrite Hget in Hinv1. cbn [snd] in Hinv1.
  intros f' inputs Hin. cbn [record trace _flow_cache] in *.
  rewrite kickoffs_app in Hin. apply in_app_or in Hin as [Hin | Hin].
  - by apply Hinv1.
  - destruct Hin as [[= <- <-] | []]. cbn [crew_name flow_name].
    split_and!; [by eapply get_flow_Ok_cached | done |].
    by eapply dict_get_In_values.
Qed.

(** X18: over the life of the process every invocation went to the one flow
    that is in the cache, with a flow name of the registry given as both
    [crew_name] and [flow_name]. *)
Theorem all_kickoffs_use_cached_flow env cs :
  kickoffs_use_cache (run init kickoff cs (process_start env)).
Proof.
  assert (forall st, kickoffs_use_cache st ->
                     kickoffs_use_cache (run init kickoff cs st)) as H.
  { induction cs as [| c cs IH]; intros st Hinv; [done |].
    cbn [run fold_left]. apply IH. by apply step_kickoffs_use_cache. }
  apply H. intros f inputs [].
Qed.


End ServerProperties.



(** ** The statements at sample inputs *)

Lemma convert_registered_tool_nonempty_witness :
  exists q,
    convert_params_to_user_query "gmail_send"
      [("to", PStr "ann@example.org"); ("body", PList [PInt 1; PNone])]
    = Ok q /\ q <> "".
Proof.
  apply (convert_registered_tool_nonempty "gmail_send"
           [("to", PStr "ann@example.org"); ("body", PList [PInt 1; PNone])]);
    reflexivity.
Defined.




Lemma flow_created_once_witness :
  let st2 := run init_ok kickoff_echo
               [CallExecute sample_ambient gmail_read_request; CallGetFlow]
               state_after_first_call in
  created (trace st2) = 1 /\
  _flow_cache st2 !! "google_suite" = Some sample_flow /\
  get_google_suite_flow init_ok st2 = (Ok sample_flow, st2) /\
  constructions (trace st2) = constructions (trace state_after_first_call) /\
  getenvs (trace st2) = getenvs (trace state_after_first_call).
Proof.
  apply (flow_created_once init_ok kickoff_echo env_with_key
           [CallHealth "2024-01-01T09:00:00"] sample_flow
           state_after_first_call
           [CallExecute sample_ambient gmail_read_request; CallGetFlow]).
  reflexivity.
Defined.

Lemma convert_unknown_tool_fallback_witness :
  (exists json,
     json_dumps (PDict fallback_sample_params) = Ok json /\
     convert_params_to_user_query "not_a_real_tool" fallback_sample_params
     = Ok ("Execute " +:+ "not_a_real_tool" +:+ " with parameters: "
           +:+ json) /\
     (forall k tn sf rf response attrs,
        In (k, PObj tn sf rf response attrs) fallback_sample_params ->
        json_plain k = true -> json_plain sf = true ->
        Substring (quoted k +:+ ": " +:+ quoted sf) json)) /\
  convert_params_to_user_query "not_a_real_tool" fallback_sample_params
  = Ok ("Execute " +:+ "not_a_real_tool" +:+ " with parameters: "
        +:+ fallback_sample_json).
Proof.
  apply (convert_unknown_tool_fallback "not_a_real_tool"
           fallback_sample_params); reflexivity.
Defined.


Lemma convert_returns_iff_witness :
  returns (convert_params_to_user_query "gmail_send"
             [("body", PDict [("text", PStr "hello")])]) <->
  synthesizer_accepts "gmail_send" [("body", PDict [("text", PStr "hello")])]
  = true.
Proof.
  apply (convert_returns_iff "gmail_send"
           [("body", PDict [("text", PStr "hello")])]).
  reflexivity.
Defined.

Lemma convert_raises_no_ValueError_witness :
  is_ValueError (Exn TypeError "'int' object is not subscriptable") = false.
Proof.
  apply (convert_raises_no_ValueError "gmail_reply" [("reply_body", PInt 5)]);
    reflexivity.
Defined.

Lemma gmail_send_truncates_long_body_witness :
  convert_params_to_user_query "gmail_send"
    [("to", PStr "ann@example.org"); ("body", PStr body150);
     ("cc", PStr "bob@example.org")]
  = Ok ("Send email to " +:+ "ann@example.org"
        +:+ " with subject '" +:+ ""
        +:+ "'" +:+ " and body: " +:+ substring 0 100 body150 +:+ "..."
        +:+ (", CC: " +:+ "bob@example.org")
        +:+ "")
  /\ String.length (substring 0 100 body150) = 100.
Proof.
  apply (gmail_send_truncates_long_body
           [("to", PStr "ann@example.org"); ("body", PStr body150);
            ("cc", PStr "bob@example.org")]
           body150 "ann@example.org" "" "bob@example.org" "None");
    [reflexivity | vm_compute; lia | reflexivity ..].
Defined.

Lemma gmail_send_keeps_short_body_witness :
  convert_params_to_user_query "gmail_send"
    [("subject", PStr "Hi"); ("body", PStr "See you at noon.")]
  = Ok ("Send email to " +:+ ""
        +:+ " with subject '" +:+ "Hi"
        +:+ "'" +:+ (" and body: " +:+ "See you at noon.")
        +:+ "" +:+ "").
Proof.
  apply (gmail_send_keeps_short_body
           [("subject", PStr "Hi"); ("body", PStr "See you at noon.")]
           "See you at noon." "" "Hi" "None" "None");
    [reflexivity | vm_compute; lia | reflexivity ..].
Defined.

Lemma gmail_reply_segment_witness :
  convert_params_to_user_query "gmail_reply"
    [("original_subject", PStr "Lunch")]
  = Ok ("Reply to email from " +:+ "" +:+ " with subject '" +:+ "Lunch"
        +:+ "' and reply: " +:+ substring 0 100 "" +:+ "...")
  /\ String.length (substring 0 100 "") <= 100
  /\ (String.length "" <= 100 -> substring 0 100 "" = "").
Proof.
  apply (gmail_reply_segment [("original_subject", PStr "Lunch")]
           "" "" "Lunch"); reflexivity.
Defined.

Lemma convert_reads_only_rule_parameters_witness :
  convert_params_to_user_query "gmail_search"
    [("query", PStr "from:ann"); ("maxResults", PInt 5)]
  = convert_params_to_user_query "gmail_search"
      [("body", PInt 3); ("query", PStr "from:ann")].
Proof.
  apply (convert_reads_only_rule_parameters "gmail_search" ["query"]).
  - in_list.
  - intros k [<- | []]. reflexivity.
Defined.

Lemma parse_crewai_result_envelope_witness :
  returns (parse_crewai_result
             (PObj "GoogleSuiteFlowState" "state" "state"
                (Some (PStr "3 unread emails")) (Some []))) <->
  normalizer_accepts
    (PObj "GoogleSuiteFlowState" "state" "state"
       (Some (PStr "3 unread emails")) (Some [])) = true.
Proof.
  apply (parse_crewai_result_envelope
           (PObj "GoogleSuiteFlowState" "state" "state"
              (Some (PStr "3 unread emails")) (Some []))).
  discriminate.
Defined.

Lemma empty_api_key_is_missing_witness :
  get_google_suite_flow init_ok (process_start env_empty_key)
  = (Raise (Exn ValueError "OPENAI_API_KEY not set in environment variables"),
     record (EvGetenv "OPENAI_API_KEY") (process_start env_empty_key)) /\
  constructions
    (trace (snd (get_google_suite_flow init_ok
                   (process_start env_empty_key))))
  = constructions (trace (process_start env_empty_key)) /\
  _flow_cache (snd (get_google_suite_flow init_ok
                      (process_start env_empty_key)))
  = _flow_cache (process_start env_empty_key).
Proof.
  apply (empty_api_key_is_missing init_ok (process_start env_empty_key));
    reflexivity.
Defined.

Lemma failed_construction_is_retried_witness :
  exists st1 st2,
    get_google_suite_flow init_fails_once (process_start env_with_key)
    = (Raise (Exn ValueError
                ("Flow initialization failed: "
                 +:+ exn_str (Exn Exception_ "router files missing"))),
       st1) /\
    _flow_cache st1 = _flow_cache (process_start env_with_key) /\
    get_google_suite_flow init_fails_once st1
    = (Ok {| flow_id :=
               S (length (constructions
                            (trace (process_start env_with_key))));
             init_name := "Google Suite Flow";
             init_api_key := "sk-test" |}, st2) /\
    constructions (trace st2)
    = constructions (trace (process_start env_with_key))
      ++ [Some (Exn Exception_ "router files missing"); None].
Proof.
  apply (failed_construction_is_retried init_fails_once
           (process_start env_with_key) "sk-test"
           (Exn Exception_ "router files missing"));
    [reflexivity | reflexivity | discriminate | reflexivity | reflexivity].
Defined.

Lemma synthesis_failure_reported_witness :
  execute_google_suite_tool init_ok kickoff_echo sample_ambient
    gmail_reply_number_request (process_start env_with_key)
  = ({| success := false; output := None;
        error := Some ("Error executing tool "
                       +:+ toolId gmail_reply_number_request +:+ ": "
                       +:+ exn_str (Exn TypeError
                                      "'int' object is not subscriptable"));
        metadata := Some [("traceback", PStr (format_exc sample_ambient))] |},
     process_start env_with_key).
Proof.
  apply (synthesis_failure_reported init_ok kickoff_echo sample_ambient
           gmail_reply_number_request (process_start env_with_key));
    reflexivity.
Defined.




Lemma caller_query_ignores_params_witness :
  execute_google_suite_tool init_ok kickoff_echo sample_ambient
    {| toolId := "gmail_reply"; params := [("reply_body", PInt 5)];
       userQuery := Some "reply that I will come" |}
    (process_start env_with_key)
  = execute_google_suite_tool init_ok kickoff_echo sample_ambient
      {| toolId := "gmail_reply"; params := [];
         userQuery := Some "reply that I will come" |}
      (process_start env_with_key).
Proof.
  apply (caller_query_ignores_params init_ok kickoff_echo sample_ambient
           "gmail_reply" [("reply_body", PInt 5)] []
           "reply that I will come" (process_start env_with_key));
    [discriminate | reflexivity | reflexivity].
Defined.

Lemma all_kickoffs_use_cached_flow_witness :
  _flow_cache (run init_ok kickoff_echo
                 [CallExecute sample_ambient gmail_read_request]
                 (process_start env_with_key))
    !! "google_suite" = Some sample_flow /\
  crew_name gmail_read_inputs = flow_name gmail_read_inputs /\
  In (crew_name gmail_read_inputs) (map snd TOOL_TO_CREW_MAPPING).
Proof.
  apply (all_kickoffs_use_cached_flow init_ok kickoff_echo env_with_key
           [CallExecute sample_ambient gmail_read_request]
           sample_flow gmail_read_inputs).
  left. reflexivity.
Defined.

(** ** Further examples *)

(** The calendar example of the specification. *)
Example calendar_create_standup :
  convert_params_to_user_query "google_calendar_create"
    [("summary", PStr "Standup");
     ("start", PDict [("dateTime", PStr "2024-01-01T09:00:00")]);
     ("end", PDict [("dateTime", PStr "2024-01-01T09:30:00")])]
  = Ok "Create calendar event: Standup from 2024-01-01T09:00:00 to 2024-01-01T09:30:00".
Proof. reflexivity. Qed.

(** [null] for a parameter is not a missing parameter: the default does not
    apply, and [gmail_reply] raises on it. *)
Example gmail_reply_null_body :
  convert_params_to_user_query "gmail_reply" [("reply_body", PNone)]
  = Raise (Exn TypeError "'NoneType' object is not subscriptable").
Proof. reflexivity. Qed.

(** Attendees in the Calendar API's own shape, a list of objects. *)
Example calendar_create_attendee_objects :
  convert_params_to_user_query "google_calendar_create"
    [("attendees", PList [PDict [("email", PStr "a@example.org")]])]
  = Raise (Exn TypeError
             "sequence item 0: expected str instance, dict found").
Proof. reflexivity. Qed.

(** The parameters as the first log lines write them, with [indent=2]. *)
Example params_log_text :
  json_dumps_indent2 (PDict [("hours", PInt 24); ("labels", PList [])])
  = Ok ("{" +:+ newline +:+ "  " +:+ quoted "hours" +:+ ": 24,"
        +:+ newline +:+ "  " +:+ quoted "labels" +:+ ": []"
        +:+ newline +:+ "}").
Proof. reflexivity. Qed.

(** With a query of the caller, parameters that cannot be logged still end
    the request before the flow is asked for. *)
Example caller_query_params_not_logged :
  execute_google_suite_tool init_ok kickoff_echo sample_ambient
    {| toolId := "gmail_read"; params := [("hours", PInt huge_int)];
       userQuery := Some "check my inbox" |} (process_start env_with_key)
  = ({| success := false; output := None;
        error := Some "Configuration error: Exceeds the limit (4300 digits) for integer string conversion; use sys.set_int_max_str_digits() to increase the limit";
        metadata := None |},
     process_start env_with_key).
Proof. reflexivity. Qed.

(** A flow whose result is an [int] of 4301 digits: the normalizer raises,
    and the request that ran the flow ends as a configuration error. *)
Example kickoff_result_beyond_limit :
  fst (execute_google_suite_tool init_ok (fun _ _ _ => Ok (PInt huge_int))
         sample_ambient gmail_read_request (process_start env_with_key))
  = {| success := false; output := None;
       error := Some "Configuration error: Exceeds the limit (4300 digits) for integer string conversion; use sys.set_int_max_str_digits() to increase the limit";
       metadata := None |}.
Proof. reflexivity. Qed.

(** A constructor that raises: the request ends with a configuration error,
    the cache stays empty, and the next request tries again. *)
Example constructor_failure_reported :
  let '(response, st) :=
    execute_google_suite_tool init_fails kickoff_echo sample_ambient
      gmail_read_request (process_start env_with_key) in
  error response
  = Some "Configuration error: Flow initialization failed: router files missing"
  /\ _flow_cache st !! "google_suite" = None
  /\ length (constructions
               (trace (snd (execute_google_suite_tool init_fails kickoff_echo
                              sample_ambient gmail_read_request st)))) = 2.
Proof. repeat split. Qed.

(** The list endpoint: as many tools as registry entries, none twice. *)
Example list_available_tools_total :
  total list_available_tools = 27 /\
  total list_available_tools = length (tools list_available_tools) /\
  NoDup (tools list_available_tools).
Proof.
  repeat split. apply (bool_decide_unpack _). by vm_compute.
Qed.
